(** * CraftBazaar sales report generator: report_generator.py

    A shallow embedding of [src/report_generator.py] as the module runs when
    the optional [pandas] import fails ([pd = None]): the csv-based loader,
    the dictionary-based aggregation, the report writer and [main].

    - Python [int] is [Z]; Python [float] is IEEE-754 binary64, taken from
      the Standard Library's [SpecFloat] at precision 53 and [emax] 1024.
    - Python [dict] is an insertion-ordered association list with unique
      keys ([Dict]).
    - Exceptions are values of [exn]; code that can raise returns [result].
    - Console output and the files written are threaded through [io];
      what the operating system answers is a [system], and the built-ins
      [int], [float], [repr], [str] and [format] on text are a [builtins].
    - The loader converts each row as the reader yields it: when reading
      fails midway, the rows read before the failure are converted first.
    - The branches under [if pd:], which hand the work to pandas, are not
      part of the embedding: every statement below is about a run without
      pandas. *)

From Stdlib Require Import ZArith QArith Qabs List String Ascii Bool Lia DecimalString.
From Stdlib Require Import Permutation SpecFloat.
Import ListNotations.

Set Implicit Arguments.
Local Open Scope Z_scope.

(* ================================================================== *)
(** ** Python floats *)

Definition float : Type := spec_float.

Module PyFloat.

Definition prec : Z := 53.
Definition emax : Z := 1024.

Definition add : float -> float -> float := SFadd prec emax.
Definition mul : float -> float -> float := SFmul prec emax.

(** [a < b] on floats; false as soon as one side is NaN. *)
Definition ltb : float -> float -> bool := SFltb.
(** [a >= b] on floats, that is [b <= a]; false as soon as one side is NaN. *)
Definition geb (a b : float) : bool := SFleb b a.

Definition is_nan (f : float) : bool :=
  match f with S754_nan => true | _ => false end.

(** The literal [0.0]. *)
Definition zero : float := S754_zero false.

(** The integer [z] rounded to the nearest binary64 (ties to even); an
    infinity when [z] is out of range. *)
Definition round_int (z : Z) : float := binary_normalize prec emax z 0 false.

(** Conversion of a Python [int] operand in mixed arithmetic: [None] stands
    for "int too large to convert to float". *)
Definition of_int (z : Z) : option float :=
  match round_int z with
  | S754_infinity _ => None
  | f => Some f
  end.

(** A float literal with an integral value, such as [10.0]. *)
Definition lit (z : Z) : float := round_int z.

End PyFloat.

(* ================================================================== *)
(** ** Exceptions and the error monad *)

Inductive exn : Type :=
| SystemExit (code : Z)
| KeyError (key : string)
| ValueError (msg : string)
| TypeError (msg : string)
| OverflowError (msg : string)
| OSError (msg : string).

(** [isinstance(e, Exception)]: [SystemExit] derives from [BaseException]
    only, the other classes derive from [Exception]. *)
Definition is_Exception (e : exn) : bool :=
  match e with
  | SystemExit _ => false
  | _ => true
  end.

Inductive result (A : Type) : Type :=
| Ok (a : A)
| Raise (e : exn).

Arguments Ok {A} a.
Arguments Raise {A} e.

Definition rbind {A B : Type} (m : result A) (k : A -> result B) : result B :=
  match m with
  | Ok a => k a
  | Raise e => Raise e
  end.

Declare Scope result_scope.
Delimit Scope result_scope with result.
Notation "x <- m ;; k" := (rbind m (fun x => k))
  (at level 61, m at next level, right associativity) : result_scope.

(* ================================================================== *)
(** ** Insertion-ordered dictionaries *)

Module Dict.
Section Dict.

Variables K V : Type.
Variable eqb : K -> K -> bool.

Definition t := list (K * V).

Definition empty : t := [].

(** [d.get(k)] *)
Fixpoint get (k : K) (d : t) : option V :=
  match d with
  | [] => None
  | (k', v) :: d' => if eqb k k' then Some v else get k d'
  end.

(** [k in d] *)
Definition mem (k : K) (d : t) : bool :=
  match get k d with Some _ => true | None => false end.

(** [d[k] = v]: an existing key keeps its position, a new key goes last. *)
Fixpoint set (k : K) (v : V) (d : t) : t :=
  match d with
  | [] => [(k, v)]
  | (k', v') :: d' => if eqb k k' then (k', v) :: d' else (k', v') :: set k v d'
  end.

(** [d.setdefault(k, v)], for its effect on [d]. *)
Definition setdefault (k : K) (v : V) (d : t) : t :=
  if mem k d then d else d ++ [(k, v)].

(** In-place change of the value stored under [k] ([d[k][...] += ...]). *)
Fixpoint update (k : K) (f : V -> V) (d : t) : t :=
  match d with
  | [] => []
  | (k', v) :: d' => if eqb k k' then (k', f v) :: d' else (k', v) :: update k f d'
  end.

(** [list(d.keys())] and [list(d.items())] *)
Definition keys (d : t) : list K := map fst d.
Definition items (d : t) : list (K * V) := d.

End Dict.
End Dict.

(* ================================================================== *)
(** ** Rows *)

(** What a field of a [csv.DictReader] row can hold: text, [None] (the
    [restval] of a short row) or the list of surplus cells (stored under
    the [restkey] [None] of a long row). *)
Inductive value : Type :=
| VStr (s : string)
| VNone
| VList (l : list string).

Definition list_string_eqb (a b : list string) : bool :=
  if list_eq_dec string_dec a b then true else false.

Definition value_eqb (a b : value) : bool :=
  match a, b with
  | VStr s, VStr s' => String.eqb s s'
  | VNone, VNone => true
  | VList l, VList l' => list_string_eqb l l'
  | _, _ => false
  end.

(** Keys of a row dictionary: a column name, or [None] for the [restkey]. *)
Definition colkey := option string.

Definition colkey_eqb (a b : colkey) : bool :=
  match a, b with
  | Some s, Some s' => String.eqb s s'
  | None, None => true
  | _, _ => false
  end.

(** A row as [load_data] returns it: the [DictReader] dictionary in which
    ['units_sold'] has been replaced by an [int] and ['unit_price'] by a
    [float].  The two converted entries are the typed fields; [fields] is the
    dictionary as [DictReader] built it and answers every other key. *)
Record row : Type := mkRow {
  units_sold : Z;
  unit_price : float;
  fields : Dict.t colkey value
}.

(** [r[name]] for a column other than the two converted ones. *)
Definition getitem (r : row) (name : string) : result value :=
  match Dict.get colkey_eqb (Some name) (fields r) with
  | Some v => Ok v
  | None => Raise (KeyError name)
  end.

(** Use of a value as a dictionary key: a list is not hashable. *)
Definition hashable (v : value) : result value :=
  match v with
  | VList _ => Raise (TypeError "unhashable type: 'list'")
  | _ => Ok v
  end.

(** [int * float]: the [int] is converted first. *)
Definition mul_int_float (n : Z) (x : float) : result float :=
  match PyFloat.of_int n with
  | Some f => Ok (PyFloat.mul f x)
  | None => Raise (OverflowError "int too large to convert to float")
  end.

(* ================================================================== *)
(** ** [sorted] *)

Section Sorted.

Variable A : Type.
Variable lt : A -> A -> bool.

(** Stable insertion: [x] stood before every element of [l] and stays
    before those it is not greater than. *)
Fixpoint insert (x : A) (l : list A) : list A :=
  match l with
  | [] => [x]
  | y :: l' => if lt y x then y :: insert x l' else x :: l
  end.

(** Ascending stable sort that compares with [<] only: what [list.sort]
    promises, and its result whenever [<] orders the keys (no NaN among
    them).  With a NaN key the built-in sort promises nothing and its result
    depends on how it cuts the list into runs. *)
Fixpoint sort_asc (l : list A) : list A :=
  match l with
  | [] => []
  | x :: l' => insert x (sort_asc l')
  end.

(** [sorted(l, key=..., reverse=...)]: with [reverse=True] the list is
    reversed, sorted ascending and reversed again, which keeps equal
    elements in their original order. *)
Definition py_sorted (reverse : bool) (l : list A) : list A :=
  if reverse then rev (sort_asc (rev l)) else sort_asc l.

End Sorted.

(* ================================================================== *)
(** ** [generate_summary] *)

(** The inner dictionary [{'units': ..., 'revenue': ...}]. *)
Record vals : Type := mkVals {
  units : Z;
  revenue : float
}.

Definition table := list (value * vals).

Record summary : Type := mkSummary {
  total_revenue : float;
  total_units : Z;
  by_artisan : table;
  by_product : table
}.

(** The two [+=] on the entry of [k], which [setdefault] has just made sure
    of. *)
Definition accumulate (k : value) (n : Z) (rev : float) (d : table) : table :=
  let d := Dict.update value_eqb k
             (fun v => mkVals (units v + n) (revenue v)) d in
  Dict.update value_eqb k
    (fun v => mkVals (units v) (PyFloat.add (revenue v) rev)) d.

(** One iteration of [for r in df]. *)
Definition summary_step (st : summary) (r : row) : result summary :=
  (rev <- mul_int_float (units_sold r) (unit_price r) ;;
   let total_revenue := PyFloat.add (total_revenue st) rev in
   let total_units := total_units st + units_sold r in
   a <- getitem r "artisan" ;;
   a <- hashable a ;;
   let by_artisan :=
     Dict.setdefault value_eqb a (mkVals 0 PyFloat.zero) (by_artisan st) in
   let by_artisan := accumulate a (units_sold r) rev by_artisan in
   p <- getitem r "product" ;;
   p <- hashable p ;;
   let by_product :=
     Dict.setdefault value_eqb p (mkVals 0 PyFloat.zero) (by_product st) in
   let by_product := accumulate p (units_sold r) rev by_product in
   Ok (mkSummary total_revenue total_units by_artisan by_product))%result.

Fixpoint summary_loop (st : summary) (df : list row) : result summary :=
  match df with
  | [] => Ok st
  | r :: df' => (st' <- summary_step st r ;; summary_loop st' df')%result
  end.

(** [key=lambda x: x[1]['revenue']] compared with [<]. *)
Definition revenue_lt (x y : value * vals) : bool :=
  PyFloat.ltb (revenue (snd x)) (revenue (snd y)).

(** The [else] branch of [generate_summary] (lines 56-75), the one taken
    when pandas is absent. *)
Definition generate_summary (df : list row) : result summary :=
  (st <- summary_loop (mkSummary PyFloat.zero 0 (Dict.empty _ _) (Dict.empty _ _)) df ;;
   let by_artisan_sorted := py_sorted revenue_lt true (Dict.items (by_artisan st)) in
   let by_product_sorted := py_sorted revenue_lt true (Dict.items (by_product st)) in
   Ok (mkSummary (total_revenue st) (total_units st)
         by_artisan_sorted by_product_sorted))%result.

(** A record of the data model as a row: both grouping columns present and
    textual. *)
Definition record (artisan product : string) (n : Z) (price : float) : row :=
  mkRow n price
    [(Some "artisan"%string, VStr artisan); (Some "product"%string, VStr product)].

Definition scenario : list row :=
  [ record "A" "X" 2 (PyFloat.lit 10);
    record "B" "X" 1 (PyFloat.lit 5);
    record "A" "Y" 1 (PyFloat.lit 3) ].

(** The scenario of the specification, and what it must produce. *)
Definition scenario_summary : summary :=
  mkSummary (PyFloat.lit 28) 4
    [(VStr "A", mkVals 3 (PyFloat.lit 23)); (VStr "B", mkVals 1 (PyFloat.lit 5))]
    [(VStr "X", mkVals 3 (PyFloat.lit 25)); (VStr "Y", mkVals 1 (PyFloat.lit 3))].

(** Three artisans, the first and the last with the same revenue. *)
Definition tie_rows : list row :=
  [ record "A" "X" 1 (PyFloat.lit 1);
    record "B" "X" 1 (PyFloat.lit 2);
    record "C" "X" 1 (PyFloat.lit 1) ].

Definition tie_summary : summary :=
  mkSummary (PyFloat.lit 4) 3
    [(VStr "B", mkVals 1 (PyFloat.lit 2));
     (VStr "A", mkVals 1 (PyFloat.lit 1));
     (VStr "C", mkVals 1 (PyFloat.lit 1))]
    [(VStr "X", mkVals 3 (PyFloat.lit 4))].

(** A price column holding [nan], which [float] accepts. *)
Definition nan_rows : list row :=
  [ record "A" "X" 1 (PyFloat.lit 1);
    record "B" "Y" 1 S754_nan;
    record "C" "Z" 1 (PyFloat.lit 2) ].

Definition nan_summary : summary :=
  mkSummary S754_nan 3
    [(VStr "A", mkVals 1 (PyFloat.lit 1));
     (VStr "B", mkVals 1 S754_nan);
     (VStr "C", mkVals 1 (PyFloat.lit 2))]
    [(VStr "X", mkVals 1 (PyFloat.lit 1));
     (VStr "Y", mkVals 1 S754_nan);
     (VStr "Z", mkVals 1 (PyFloat.lit 2))].

(* ================================================================== *)
(** ** Built-ins, operating system and console *)

Infix "^^" := String.append (at level 60, right associativity).

(** The Python built-ins the module calls on text and numbers. *)
Record builtins : Type := {
  (** [int(s)] on a [str]: [None] when it raises [ValueError]. *)
  int_of_str : string -> option Z;
  (** [float(s)] on a [str]: [None] when it raises [ValueError]. *)
  float_of_str : string -> option float;
  (** [repr(s)] of a [str]. *)
  repr : string -> string;
  (** [str(n)] of an [int]. *)
  str_of_int : Z -> string;
  (** [format(x, '.2f')] of a [float]. *)
  format_2f : float -> string
}.

(** How [with open(path, "w", ...) as f: f.write(text)] can fail: in [open],
    before the file is touched, or after [open] has created or truncated the
    file, in [f.write] or on closing, with [kept] in the file by then. *)
Inductive write_failure : Type :=
| OpenFailed (e : exn)
| WriteFailed (e : exn) (kept : string).

Definition failure_exn (f : write_failure) : exn :=
  match f with
  | OpenFailed e => e
  | WriteFailed e _ => e
  end.

(** What the operating system answers during one run. *)
Record system : Type := {
  (** [os.path.exists(path)] *)
  path_exists : string -> bool;
  (** Opening [path] and reading it to its end through [csv.reader]: the
      rows, each a list of cells (a blank line is the empty list), or the
      error raised by [open] or while reading. *)
  read_csv : string -> result (list (list string));
  (** When [read_csv] raises: the rows [csv.reader] had yielded before the
      error; none when [open] itself fails. *)
  read_before : string -> list (list string);
  (** [os.makedirs(path, exist_ok=True)]: the error raised, if any. *)
  makedirs : string -> option exn;
  (** [with open(path, "w", ...) as f: f.write(text)]: how it failed, if it
      did. *)
  write_text : string -> string -> option write_failure;
  (** [datetime.utcnow().strftime('%Y%m%dT%H%M%SZ')] when the module is
      loaded. *)
  load_stamp : string;
  (** [datetime.utcnow().isoformat()] when the report is written. *)
  report_stamp : string
}.

(** What a run leaves behind. *)
Record console : Type := mkConsole {
  stdout : list string;
  stderr : list string;
  created : list string;
  written : list (string * string)
}.

Definition console0 : console := mkConsole [] [] [] [].

Definition io (A : Type) : Type := console -> console * result A.

Definition ret {A : Type} (a : A) : io A := fun c => (c, Ok a).

Definition raise {A : Type} (e : exn) : io A := fun c => (c, Raise e).

Definition bind {A B : Type} (m : io A) (k : A -> io B) : io B :=
  fun c =>
    match m c with
    | (c', Ok a) => k a c'
    | (c', Raise e) => (c', Raise e)
    end.

Definition lift {A : Type} (r : result A) : io A := fun c => (c, r).

Declare Scope io_scope.
Delimit Scope io_scope with io.
Notation "x <- m ;; k" := (bind m (fun x => k))
  (at level 61, m at next level, right associativity) : io_scope.
Notation "m ;; k" := (bind m (fun _ => k))
  (at level 61, right associativity) : io_scope.

(** [print(s)] and [print(s, file=sys.stderr)] *)
Definition print (s : string) : io unit :=
  fun c => (mkConsole (stdout c ++ [s]) (stderr c) (created c) (written c), Ok tt).

Definition eprint (s : string) : io unit :=
  fun c => (mkConsole (stdout c) (stderr c ++ [s]) (created c) (written c), Ok tt).

(** [sys.exit(code)] *)
Definition sys_exit {A : Type} (code : Z) : io A := raise (SystemExit code).

(** [try: body  except Exception as e: handler e] *)
Definition try_except {A : Type} (body : io A) (handler : exn -> io A) : io A :=
  fun c =>
    match body c with
    | (c', Raise e) => if is_Exception e then handler e c' else (c', Raise e)
    | done => done
    end.

(** Exit status of the interpreter once [main()] is over. *)
Definition exit_status {A : Type} (r : result A) : Z :=
  match r with
  | Ok _ => 0
  | Raise (SystemExit code) => code
  | Raise _ => 1
  end.

Definition INPUT : string := "sales_data.csv".
Definition OUTDIR : string := "report".

Section Program.

Variable py : builtins.
Variable os : system.

(** [os.path.join(OUTDIR, f"sales_report_{...}.txt")] *)
Definition OUTFILE : string :=
  OUTDIR ^^ "/" ^^ "sales_report_" ^^ load_stamp os ^^ ".txt".

(** [str(e)] *)
Definition str_exn (e : exn) : string :=
  match e with
  | SystemExit code => str_of_int py code
  | KeyError key => repr py key
  | ValueError msg | TypeError msg | OverflowError msg | OSError msg => msg
  end.

(** [str(v)] *)
Definition str_value (v : value) : string :=
  match v with
  | VStr s => s
  | VNone => "None"
  | VList l => "[" ^^ String.concat ", " (map (repr py) l) ^^ "]"
  end.

(** *** [csv.DictReader] *)

(** [dict(zip(fieldnames, cells))] *)
Definition dict_zip (fieldnames cells : list string) : Dict.t colkey value :=
  fold_left (fun d kv => Dict.set colkey_eqb (Some (fst kv)) (VStr (snd kv)) d)
    (combine fieldnames cells) (Dict.empty _ _).

(** The dictionary [DictReader.__next__] builds from one row of cells. *)
Definition dictreader_row (fieldnames cells : list string) : Dict.t colkey value :=
  let d := dict_zip fieldnames cells in
  let lf := List.length fieldnames in
  let lr := List.length cells in
  if (lf <? lr)%nat then
    Dict.set colkey_eqb None (VList (skipn lf cells)) d
  else if (lr <? lf)%nat then
    fold_left (fun d key => Dict.set colkey_eqb (Some key) VNone d)
      (skipn lr fieldnames) d
  else d.

Definition is_blank (cells : list string) : bool :=
  match cells with [] => true | _ => false end.

(** The dictionaries a [DictReader] yields: the first row gives the field
    names, blank rows after it are skipped. *)
Definition dictreader (rows : list (list string)) : list (Dict.t colkey value) :=
  match rows with
  | [] => []
  | fieldnames :: data =>
      map (dictreader_row fieldnames) (filter (fun cells => negb (is_blank cells)) data)
  end.

(** *** [load_data] *)

(** [d[name]] on a [DictReader] dictionary. *)
Definition dict_getitem (d : Dict.t colkey value) (name : string) : result value :=
  match Dict.get colkey_eqb (Some name) d with
  | Some v => Ok v
  | None => Raise (KeyError name)
  end.

(** [int(v)] *)
Definition py_int (v : value) : result Z :=
  match v with
  | VStr s =>
      match int_of_str py s with
      | Some n => Ok n
      | None => Raise (ValueError ("invalid literal for int() with base 10: " ^^ repr py s))
      end
  | VNone =>
      Raise (TypeError "int() argument must be a string, a bytes-like object or a real number, not 'NoneType'")
  | VList _ =>
      Raise (TypeError "int() argument must be a string, a bytes-like object or a real number, not 'list'")
  end.

(** [float(v)] *)
Definition py_float (v : value) : result float :=
  match v with
  | VStr s =>
      match float_of_str py s with
      | Some x => Ok x
      | None => Raise (ValueError ("could not convert string to float: " ^^ repr py s))
      end
  | VNone => Raise (TypeError "float() argument must be a string or a real number, not 'NoneType'")
  | VList _ => Raise (TypeError "float() argument must be a string or a real number, not 'list'")
  end.

(** The body of [for r in reader], up to [rows.append(r)]. *)
Definition convert_row (d : Dict.t colkey value) : result row :=
  (u <- dict_getitem d "units_sold" ;;
   n <- py_int u ;;
   p <- dict_getitem d "unit_price" ;;
   x <- py_float p ;;
   Ok (mkRow n x d))%result.

Fixpoint convert_rows (ds : list (Dict.t colkey value)) : result (list row) :=
  match ds with
  | [] => Ok []
  | d :: ds' =>
      (r <- convert_row d ;;
       rows <- convert_rows ds' ;;
       Ok (r :: rows))%result
  end.

Definition load_data (path : string) : io (list row) :=
  if negb (path_exists os path) then
    (eprint ("ERROR: input file " ^^ path ^^ " not found") ;;
     sys_exit 2)%io
  else
    match read_csv os path with
    | Ok cells => lift (convert_rows (dictreader cells))
    | Raise e =>
        (_ <- lift (convert_rows (dictreader (read_before os path))) ;;
         raise e)%io
    end.

(** *** [print_and_save] *)

Definition table_line (kv : value * vals) : string :=
  " - " ^^ str_value (fst kv) ^^ ": units=" ^^ str_of_int py (units (snd kv))
    ^^ ", revenue=INR " ^^ format_2f py (revenue (snd kv)).

Definition rule60 : string :=
  "============================================================".

Definition report_lines (s : summary) : list string :=
  ["Sales Summary Report - generated at " ^^ report_stamp os ^^ " UTC";
   rule60;
   "Total units sold: " ^^ str_of_int py (total_units s);
   "Total revenue: INR " ^^ format_2f py (total_revenue s);
   EmptyString;
   "Revenue by artisan:"%string]
  ++ map table_line (by_artisan s)
  ++ [EmptyString; "Revenue by product:"%string]
  ++ map table_line (by_product s).

Definition newline : string := String (ascii_of_nat 10) EmptyString.

Definition os_call (outcome : option exn) : io unit :=
  match outcome with
  | Some e => raise e
  | None => ret tt
  end.

Definition note_created (path : string) : io unit :=
  fun c => (mkConsole (stdout c) (stderr c) (created c ++ [path]) (written c), Ok tt).

Definition note_written (path text : string) : io unit :=
  fun c => (mkConsole (stdout c) (stderr c) (created c) (written c ++ [(path, text)]), Ok tt).

Definition print_and_save (s : summary) : io unit :=
  ((if negb (path_exists os OUTDIR)
    then (os_call (makedirs os OUTDIR) ;; note_created OUTDIR)
    else ret tt) ;;
   let report_text := String.concat newline (report_lines s) in
   print report_text ;;
   match write_text os OUTFILE report_text with
   | None => note_written OUTFILE report_text
   | Some (OpenFailed e) => raise e
   | Some (WriteFailed e kept) => (note_written OUTFILE kept ;; raise e)
   end ;;
   print (newline ^^ "Saved report to: " ^^ OUTFILE))%io.

(** *** [main] *)

Definition main : io unit :=
  try_except
    (df <- load_data INPUT ;;
     s <- lift (generate_summary df) ;;
     print_and_save s ;;
     sys_exit 0)%io
    (fun e =>
       (eprint ("UNEXPECTED ERROR: " ^^ str_exn e) ;;
        sys_exit 1)%io).

(** One run of the script from a fresh console: what was printed and
    written, and the exit status. *)
Definition run : console * Z :=
  let (c, r) := main console0 in (c, exit_status r).

End Program.

(* ================================================================== *)
(** ** Vocabulary of the properties *)

Definition Zsum (l : list Z) : Z := fold_right Z.add 0 l.

(** Units summed over the entries of a table. *)
Definition sum_units (t : table) : Z :=
  Zsum (map (fun kv => units (snd kv)) t).

(** The keys of a table, in table order. *)
Definition table_keys (t : table) : list value := map fst t.

(** What one record adds to a grouping dictionary: the [setdefault] and the
    two [+=] of [summary_step]. *)
Definition group_add (k : value) (n : Z) (rev : float) (d : table) : table :=
  accumulate k n rev (Dict.setdefault value_eqb k (mkVals 0 PyFloat.zero) d).

(** The field of a row under a column name, if any. *)
Definition column (col : string) (r : row) : option value :=
  Dict.get colkey_eqb (Some col) (fields r).

Definition has_key (col : string) (k : value) (r : row) : bool :=
  match column col r with
  | Some v => value_eqb v k
  | None => false
  end.

(** Position in the input of the first row whose [col] field is [k]; the
    length of the input when there is none. *)
Fixpoint first_seen (col : string) (k : value) (df : list row) : nat :=
  match df with
  | [] => 0%nat
  | r :: df' => if has_key col k r then 0%nat else S (first_seen col k df')
  end.

(** Float equality [a == b]. *)
Definition revenue_eqb (a b : float) : bool := SFeqb a b.

(** A table is ranked when, for every two entries, the earlier one has a
    revenue [>=] the later one, and on equal revenue the key of the earlier
    one was seen first in the input. *)
Definition ranked (col : string) (df : list row) (t : table) : Prop :=
  ForallOrdPairs
    (fun e1 e2 =>
       PyFloat.geb (revenue (snd e1)) (revenue (snd e2)) = true /\
       (revenue_eqb (revenue (snd e1)) (revenue (snd e2)) = true ->
        (first_seen col (fst e1) df < first_seen col (fst e2) df)%nat))
    t.

Definition no_nan (t : table) : bool :=
  forallb (fun kv => negb (PyFloat.is_nan (revenue (snd kv)))) t.

(** The left-to-right binary64 sum of the per-record products, from [0.0]. *)
Definition float_sum (xs : list float) : float :=
  fold_left PyFloat.add xs PyFloat.zero.

(** What an ascending stable sort promises of an element [a] it puts ahead
    of [b], when [Q] held of the ordered pairs of its argument. *)
Definition ascending (A : Type) (lt : A -> A -> bool) (Q : A -> A -> Prop)
    (a b : A) : Prop :=
  lt b a = false /\ (lt a b = false -> Q a b).

(** The keys [ks] of a grouping dictionary after the rows [pre]: all seen,
    in first-seen order, none missing. *)
Definition keys_follow (col : string) (pre : list row) (ks : list value) : Prop :=
  Forall (fun k => (first_seen col k pre < List.length pre)%nat) ks /\
  ForallOrdPairs (fun k1 k2 => (first_seen col k1 pre < first_seen col k2 pre)%nat) ks /\
  (forall k, (first_seen col k pre < List.length pre)%nat -> In k ks).

(* ================================================================== *)
(** ** Vocabulary of the error scenarios *)

(** A row on which one iteration of the loop goes through: the units fit a
    float and both grouping columns hold a hashable value. *)
Definition groupable (col : string) (r : row) : bool :=
  match column col r with
  | Some (VStr _) | Some VNone => true
  | _ => false
  end.

Definition row_ok (r : row) : bool :=
  match PyFloat.of_int (units_sold r) with
  | Some _ => groupable "artisan" r && groupable "product" r
  | None => false
  end.

(** Zero of either sign, a positive finite number or plus infinity. *)
Definition nonneg (x : float) : bool :=
  match x with
  | S754_zero _ | S754_finite false _ _ | S754_infinity false => true
  | _ => false
  end.

(** Zero of either sign or a positive finite number. *)
Definition nonneg_finite (x : float) : bool :=
  match x with
  | S754_zero _ | S754_finite false _ _ => true
  | _ => false
  end.

(** A record of the data model: non-negative units, non-negative price. *)
Definition nonneg_row (r : row) : bool :=
  (0 <=? units_sold r) && nonneg_finite (unit_price r).

Definition required_columns : list string :=
  ["artisan"; "product"; "units_sold"; "unit_price"]%string.


(** The errors [int] and [float] raise. *)
Definition conversion_error (e : exn) : Prop :=
  match e with
  | ValueError _ | TypeError _ => True
  | _ => False
  end.

(** The errors of a run on a file whose header lacks a column: the lookup of
    a missing column, or a conversion or overflow error met before it. *)
Definition lookup_or_earlier (fieldnames : list string) (e : exn) : Prop :=
  match e with
  | KeyError key => ~ In key fieldnames
  | ValueError _ | TypeError _ | OverflowError _ => True
  | _ => False
  end.

(** What the top-level handler leaves on the console for the error [e]. *)
Definition unexpected (py : builtins) (e : exn) : console :=
  mkConsole [] ["UNEXPECTED ERROR: " ^^ str_exn py e] [] [].

(** *** A runtime and files to run the model on *)

Fixpoint decimal (s : string) (acc : Z) : option Z :=
  match s with
  | EmptyString => Some acc
  | String c s' =>
      let n := Z.of_nat (nat_of_ascii c) - 48 in
      if (0 <=? n) && (n <=? 9) then decimal s' (10 * acc + n) else None
  end.

(** Unsigned decimal numerals only: enough to run the examples. *)
Definition sample_int (s : string) : option Z :=
  match s with
  | EmptyString => None
  | _ => decimal s 0
  end.

Definition sample_float (s : string) : option float :=
  if String.eqb s "nan" then Some S754_nan
  else option_map PyFloat.lit (sample_int s).

(** [a / b] rounded to the nearest integer, ties to even. *)
Definition round_half_even (a b : Z) : Z :=
  let q := a / b in
  match Z.compare (2 * (a mod b)) b with
  | Lt => q
  | Gt => q + 1
  | Eq => if Z.even q then q else q + 1
  end.

(** The hundredths in [m * 2 ^ e], correctly rounded. *)
Definition hundredths (m : positive) (e : Z) : Z :=
  match e with
  | Zneg p => round_half_even (Zpos m * 100) (2 ^ Zpos p)
  | _ => Zpos m * 100 * 2 ^ e
  end.

Definition show_nat (n : Z) : string := NilZero.string_of_int (Z.to_int n).

Definition fixed2 (negative : bool) (c : Z) : string :=
  (if negative then "-" else EmptyString)
    ^^ show_nat (c / 100) ^^ "."
    ^^ (if c mod 100 <? 10 then "0" else EmptyString) ^^ show_nat (c mod 100).

(** [format(x, '.2f')]: the exact value rounded to two decimals. *)
Definition sample_format (x : float) : string :=
  match x with
  | S754_zero s => fixed2 s 0
  | S754_infinity false => "inf"
  | S754_infinity true => "-inf"
  | S754_nan => "nan"
  | S754_finite s m e => fixed2 s (hundredths m e)
  end.

Definition sample_py : builtins :=
  {| int_of_str := sample_int;
     float_of_str := sample_float;
     repr := fun s => "'" ^^ s ^^ "'";
     str_of_int := fun n => NilZero.string_of_int (Z.to_int n);
     format_2f := sample_format |}.

(** A machine on which only the input file may exist, holding [content],
    and on which creating the directory and writing the report succeed. *)
Definition machine (content : option (list (list string))) : system :=
  {| path_exists := fun p =>
       match content with
       | Some _ => String.eqb p INPUT
       | None => false
       end;
     read_csv := fun p =>
       match content with
       | Some rows => Ok rows
       | None => Raise (OSError "No such file or directory")
       end;
     read_before := fun _ => [];
     makedirs := fun _ => None;
     write_text := fun _ _ => None;
     load_stamp := "20240101T000000Z";
     report_stamp := "2024-01-01T00:00:00" |}.

Definition header : list string :=
  ["artisan"; "product"; "units_sold"; "unit_price"]%string.


(** A header without [unit_price], and one data row. *)
Definition no_price_file : list (list string) :=
  [ ["artisan"; "product"; "units_sold"];
    ["A"; "X"; "2"] ]%string.

(** A header without [unit_price], and no data row. *)
Definition header_only_file : list (list string) :=
  [ ["artisan"; "product"; "units_sold"] ]%string.

(* ================================================================== *)
(** ** Vocabulary of the further properties *)

(** The error one iteration of the loop raises on a row, whatever the state:
    the product is computed first, then ['artisan'] is looked up and used as
    a key, then ['product']. *)
Definition row_error (r : row) : option exn :=
  match PyFloat.of_int (units_sold r) with
  | None => Some (OverflowError "int too large to convert to float")
  | Some _ =>
      match column "artisan" r with
      | None => Some (KeyError "artisan")
      | Some (VList _) => Some (TypeError "unhashable type: 'list'")
      | Some _ =>
          match column "product" r with
          | None => Some (KeyError "product")
          | Some (VList _) => Some (TypeError "unhashable type: 'list'")
          | Some _ => None
          end
      end
  end.

(** The rows of the input whose [col] field is [k], in input order. *)
Definition rows_of (col : string) (k : value) (df : list row) : list row :=
  filter (has_key col k) df.

(** The entry of a grouping dictionary under [k]; the fresh entry
    [{'units': 0, 'revenue': 0.0}] when there is none yet. *)
Definition entry (d : table) (k : value) : vals :=
  match Dict.get value_eqb k d with
  | Some v => v
  | None => mkVals 0 PyFloat.zero
  end.

(** Two rows that agree on what the aggregation reads: the two numbers and
    the two grouping fields. *)
Definition same_record (r r' : row) : Prop :=
  units_sold r = units_sold r' /\
  unit_price r = unit_price r' /\
  column "artisan" r = column "artisan" r' /\
  column "product" r = column "product" r'.


(** The text of the report: ["\n".join(lines)]. *)
Definition report_text (py : builtins) (os : system) (s : summary) : string :=
  String.concat newline (report_lines py os s).

(** The last line printed on success. *)
Definition saved_line (os : system) : string :=
  newline ^^ "Saved report to: " ^^ OUTFILE os.

(** The directories a run creates: [OUTDIR], unless it exists. *)
Definition dirs_created (os : system) : list string :=
  if path_exists os OUTDIR then [] else [OUTDIR].

(** How [main] ends once [print_and_save] is over: exit status 0, or the
    handler for an [Exception]. *)
Definition finish (py : builtins) (out : console * result unit) : console * Z :=
  match out with
  | (c, Ok _) => (c, 0)
  | (c, Raise e) =>
      if is_Exception e
      then (mkConsole (stdout c) (stderr c ++ ["UNEXPECTED ERROR: " ^^ str_exn py e])
              (created c) (written c), 1)
      else (c, exit_status (@Raise unit e))
  end.

(** A machine like [machine], on which creating the directory and writing the
    report answer as given. *)
Definition faulty_machine (content : option (list (list string)))
    (mk : option exn) (wr : option write_failure) : system :=
  {| path_exists := path_exists (machine content);
     read_csv := read_csv (machine content);
     read_before := fun _ => [];
     makedirs := fun _ => mk;
     write_text := fun _ _ => wr;
     load_stamp := load_stamp (machine content);
     report_stamp := report_stamp (machine content) |}.

(** A well-formed file: the columns in another order, a blank line, a long
    row. *)
Definition good_file : list (list string) :=
  [ ["units_sold"; "artisan"; "unit_price"; "product"];
    ["2"; "A"; "10"; "X"];
    [];
    ["1"; "B"; "5"; "X"; "surplus"] ]%string.

(** What the loader and the aggregation make of [good_file]. *)
Definition good_rows : list row :=
  [ mkRow 2 (PyFloat.lit 10)
      (dictreader_row ["units_sold"; "artisan"; "unit_price"; "product"]
         ["2"; "A"; "10"; "X"])%string;
    mkRow 1 (PyFloat.lit 5)
      (dictreader_row ["units_sold"; "artisan"; "unit_price"; "product"]
         ["1"; "B"; "5"; "X"; "surplus"])%string ].

Definition good_summary : summary :=
  mkSummary (PyFloat.lit 25) 3
    [(VStr "A", mkVals 2 (PyFloat.lit 20)); (VStr "B", mkVals 1 (PyFloat.lit 5))]
    [(VStr "X", mkVals 3 (PyFloat.lit 25))].

(** A file without the 'artisan' column. *)
Definition no_artisan_file : list (list string) :=
  [ ["product"; "units_sold"; "unit_price"];
    ["X"; "2"; "10"] ]%string.


(** Units that do not fit a float. *)
Definition huge_rows : list row :=
  [ record "A" "X" 1 (PyFloat.lit 1);
    record "B" "X" (2 ^ 1024) (PyFloat.lit 1);
    mkRow 1 (PyFloat.lit 1) [] ].

(* ================================================================== *)
(** ** Vocabulary of the tolerance on the revenue *)






(* ================================================================== *)
(** ** Vocabulary of numeric text *)







(* ================================================================== *)
(** ** Tactics for the order of binary64 values *)

Ltac sign_cases :=
  repeat match goal with
    | s : bool |- _ => destruct s
    end;
  cbn in *; try congruence; try reflexivity; try discriminate.

Ltac compare_cases :=
  repeat match goal with
    | |- context [Z.compare ?a ?b] => destruct (Z.compare_spec a b)
    | H : context [Z.compare ?a ?b] |- _ => destruct (Z.compare_spec a b)
    | |- context [Pos.compare_cont Eq ?a ?b] =>
        change (Pos.compare_cont Eq a b) with (Pos.compare a b);
        destruct (Pos.compare_spec a b)
    | H : context [Pos.compare_cont Eq ?a ?b] |- _ =>
        change (Pos.compare_cont Eq a b) with (Pos.compare a b) in H;
        destruct (Pos.compare_spec a b)
    end;
  cbn in *; try congruence; try reflexivity; try discriminate; try lia.

Ltac float_order :=
  unfold PyFloat.geb, PyFloat.ltb, PyFloat.is_nan, revenue_eqb,
    SFleb, SFltb, SFeqb, SFcompare;
  intros;
  repeat match goal with
    | x : float |- _ => destruct x
    end;
  sign_cases; compare_cases.

(* ================================================================== *)
(** ** Facts on dictionaries *)

Lemma value_eqb_eq (a b : value) : value_eqb a b = true <-> a = b.
Proof.
  destruct a as [s| |l], b as [s'| |l']; simpl; split; intro H;
    try discriminate; try reflexivity.
  - apply String.eqb_eq in H. now subst.
  - inversion H. apply String.eqb_refl.
  - unfold list_string_eqb in H.
    destruct (list_eq_dec string_dec l l'); [now subst | discriminate].
  - inversion H. unfold list_string_eqb.
    destruct (list_eq_dec string_dec l' l'); [reflexivity | contradiction].
Qed.

Lemma value_eqb_refl (a : value) : value_eqb a a = true.
Proof. now apply value_eqb_eq. Qed.

Lemma value_eqb_neq (a b : value) : value_eqb a b = false <-> a <> b.
Proof.
  split.
  - intros H E. apply value_eqb_eq in E. congruence.
  - intro N. destruct (value_eqb a b) eqn:E; [|reflexivity].
    apply value_eqb_eq in E. contradiction.
Qed.

Section DictFacts.

Variable V : Type.
Implicit Types (d : Dict.t value V) (k : value).

Lemma mem_In k d : Dict.mem value_eqb k d = true <-> In k (map fst d).
Proof.
  unfold Dict.mem. induction d as [|[k' v] d IH]; simpl.
  - split; [discriminate | contradiction].
  - destruct (value_eqb k k') eqn:E.
    + apply value_eqb_eq in E. subst. split; auto.
    + apply value_eqb_neq in E. rewrite IH. split; [auto|].
      intros [H|H]; [congruence | assumption].
Qed.

Lemma mem_not_In k d : Dict.mem value_eqb k d = false <-> ~ In k (map fst d).
Proof.
  rewrite <- mem_In. destruct (Dict.mem value_eqb k d); split; congruence.
Qed.

Lemma keys_update k f d : map fst (Dict.update value_eqb k f d) = map fst d.
Proof.
  induction d as [|[k' v] d IH]; simpl; [reflexivity|].
  destruct (value_eqb k k'); simpl; congruence.
Qed.

Lemma keys_setdefault k v d :
  map fst (Dict.setdefault value_eqb k v d) =
  if Dict.mem value_eqb k d then map fst d else map fst d ++ [k].
Proof.
  unfold Dict.setdefault. destruct (Dict.mem value_eqb k d); [reflexivity|].
  now rewrite map_app.
Qed.

Lemma mem_setdefault k v d :
  Dict.mem value_eqb k (Dict.setdefault value_eqb k v d) = true.
Proof.
  apply mem_In. rewrite keys_setdefault.
  destruct (Dict.mem value_eqb k d) eqn:E.
  - now apply mem_In.
  - apply in_or_app. right. now left.
Qed.

End DictFacts.

Lemma Zsum_app (l1 l2 : list Z) : Zsum (l1 ++ l2) = Zsum l1 + Zsum l2.
Proof. induction l1 as [|x l1 IH]; simpl; [reflexivity | rewrite IH; lia]. Qed.

Lemma Zsum_rev (l : list Z) : Zsum (rev l) = Zsum l.
Proof.
  induction l as [|x l IH]; simpl; [reflexivity|].
  rewrite Zsum_app, IH. simpl. lia.
Qed.

Lemma Zsum_Permutation (l1 l2 : list Z) : Permutation l1 l2 -> Zsum l1 = Zsum l2.
Proof. induction 1; simpl; lia. Qed.

Lemma sum_units_update (k : value) (f : vals -> vals) (delta : Z) (d : table) :
  (forall v, units (f v) = units v + delta) ->
  Dict.mem value_eqb k d = true ->
  sum_units (Dict.update value_eqb k f d) = sum_units d + delta.
Proof.
  intros Hf. unfold sum_units, Dict.mem.
  induction d as [|[k' v] d IH]; simpl; [discriminate|].
  destruct (value_eqb k k'); simpl; intro H.
  - rewrite Hf. lia.
  - rewrite IH by assumption. lia.
Qed.

Lemma keys_group_add (k : value) (n : Z) (rev : float) (d : table) :
  table_keys (group_add k n rev d) =
  if Dict.mem value_eqb k d then table_keys d else table_keys d ++ [k].
Proof.
  unfold table_keys, group_add, accumulate.
  now rewrite !keys_update, keys_setdefault.
Qed.

Lemma sum_units_group_add (k : value) (n : Z) (rev : float) (d : table) :
  sum_units (group_add k n rev d) = sum_units d + n.
Proof.
  unfold group_add, accumulate.
  rewrite sum_units_update with (delta := 0).
  - rewrite sum_units_update with (delta := n).
    + unfold Dict.setdefault. destruct (Dict.mem value_eqb k d); [lia|].
      unfold sum_units. rewrite map_app, Zsum_app. simpl. lia.
    + reflexivity.
    + apply mem_setdefault.
  - intros v. simpl. lia.
  - apply mem_In. rewrite keys_update. apply mem_In, mem_setdefault.
Qed.

Lemma NoDup_group_add (k : value) (n : Z) (rev : float) (d : table) :
  NoDup (table_keys d) -> NoDup (table_keys (group_add k n rev d)).
Proof.
  intro H. rewrite keys_group_add.
  destruct (Dict.mem value_eqb k d) eqn:E; [assumption|].
  apply mem_not_In in E.
  apply NoDup_app; [assumption | repeat constructor; intros [] | ].
  intros a Ha [<-|[]]. now apply E.
Qed.

(* ================================================================== *)
(** ** [sorted] permutes its argument *)

Section SortedPerm.

Variable A : Type.
Variable lt : A -> A -> bool.

Lemma insert_perm (x : A) (l : list A) : Permutation (insert lt x l) (x :: l).
Proof.
  induction l as [|y l IH]; simpl; [apply Permutation_refl|].
  destruct (lt y x); [|apply Permutation_refl].
  eapply perm_trans; [apply perm_skip, IH | apply perm_swap].
Qed.

Lemma sort_asc_perm (l : list A) : Permutation (sort_asc lt l) l.
Proof.
  induction l as [|x l IH]; simpl; [constructor|].
  eapply perm_trans; [apply insert_perm | now apply perm_skip].
Qed.

Lemma py_sorted_perm (reverse : bool) (l : list A) :
  Permutation (py_sorted lt reverse l) l.
Proof.
  unfold py_sorted. destruct reverse; [|apply sort_asc_perm].
  eapply perm_trans; [apply Permutation_sym, Permutation_rev|].
  eapply perm_trans; [apply sort_asc_perm|].
  apply Permutation_sym, Permutation_rev.
Qed.

End SortedPerm.

(* ================================================================== *)
(** ** The aggregation loop *)

Lemma summary_step_inv (st st' : summary) (r : row) :
  summary_step st r = Ok st' ->
  exists rev a p,
    mul_int_float (units_sold r) (unit_price r) = Ok rev /\
    column "artisan" r = Some a /\
    column "product" r = Some p /\
    st' = mkSummary (PyFloat.add (total_revenue st) rev)
            (total_units st + units_sold r)
            (group_add a (units_sold r) rev (by_artisan st))
            (group_add p (units_sold r) rev (by_product st)).
Proof.
  unfold summary_step, getitem, column.
  destruct (mul_int_float (units_sold r) (unit_price r)) as [rev|]; simpl; [|discriminate].
  destruct (Dict.get colkey_eqb (Some "artisan"%string) (fields r)) as [a|]; simpl; [|discriminate].
  destruct (hashable a) as [a'|] eqn:Ha; simpl; [|discriminate].
  destruct (Dict.get colkey_eqb (Some "product"%string) (fields r)) as [p|]; simpl; [|discriminate].
  destruct (hashable p) as [p'|] eqn:Hp; simpl; [|discriminate].
  intro H. inversion H; subst; clear H.
  assert (a' = a) by (destruct a; simpl in Ha; congruence).
  assert (p' = p) by (destruct p; simpl in Hp; congruence).
  subst. exists rev, a, p. repeat split; reflexivity.
Qed.

(** What the loop leaves in its four variables, in terms of the rows. *)
Lemma summary_loop_totals (df : list row) : forall st st',
  summary_loop st df = Ok st' ->
  total_units st' = total_units st + Zsum (map units_sold df) /\
  sum_units (by_artisan st') = sum_units (by_artisan st) + Zsum (map units_sold df) /\
  sum_units (by_product st') = sum_units (by_product st) + Zsum (map units_sold df) /\
  (NoDup (table_keys (by_artisan st)) -> NoDup (table_keys (by_artisan st'))) /\
  (NoDup (table_keys (by_product st)) -> NoDup (table_keys (by_product st'))).
Proof.
  induction df as [|r df IH]; simpl; intros st st' H.
  - inversion H; subst. repeat split; auto; lia.
  - destruct (summary_step st r) as [st1|] eqn:E; simpl in H; [|discriminate].
    apply summary_step_inv in E. destruct E as (rev & a & p & _ & _ & _ & ->).
    apply IH in H. simpl in H. destruct H as (H1 & H2 & H3 & H4 & H5).
    rewrite sum_units_group_add in H2, H3.
    repeat split; try lia.
    + intro N. apply H4. now apply NoDup_group_add.
    + intro N. apply H5. now apply NoDup_group_add.
Qed.

Lemma generate_summary_inv (df : list row) (s : summary) :
  generate_summary df = Ok s ->
  exists st,
    summary_loop (mkSummary PyFloat.zero 0 [] []) df = Ok st /\
    total_revenue s = total_revenue st /\
    total_units s = total_units st /\
    by_artisan s = py_sorted revenue_lt true (by_artisan st) /\
    by_product s = py_sorted revenue_lt true (by_product st).
Proof.
  unfold generate_summary, Dict.empty, Dict.items.
  destruct (summary_loop _ df) as [st|]; simpl; [|discriminate].
  intro H. inversion H; subst; clear H. exists st. repeat split.
Qed.

Lemma sum_units_perm (t1 t2 : table) :
  Permutation t1 t2 -> sum_units t1 = sum_units t2.
Proof. intro H. apply Zsum_Permutation. now apply Permutation_map. Qed.

(* ================================================================== *)
(** ** Totals and tables *)

(** C1. Whenever [generate_summary] returns, its [total_units] is the sum of
    [units_sold] over all the input records. *)
Theorem total_units_is_sum (df : list row) (s : summary) :
  generate_summary df = Ok s ->
  total_units s = Zsum (map units_sold df).
Proof.
  intro H. apply generate_summary_inv in H.
  destruct H as (st & Hloop & _ & Hu & _).
  apply summary_loop_totals in Hloop. simpl in Hloop.
  destruct Hloop as (H1 & _). lia.
Qed.

Lemma total_units_is_sum_witness :
  generate_summary scenario = Ok scenario_summary /\
  total_units scenario_summary = Zsum (map units_sold scenario).
Proof.
  split; [vm_compute; reflexivity|].
  apply (total_units_is_sum scenario). vm_compute; reflexivity.
Defined.

(** C3. Whenever [generate_summary] returns, the units of the [by_artisan]
    entries add up to [total_units], and so do those of [by_product]. *)
Theorem table_units_add_up (df : list row) (s : summary) :
  generate_summary df = Ok s ->
  sum_units (by_artisan s) = total_units s /\
  sum_units (by_product s) = total_units s.
Proof.
  intro H. apply generate_summary_inv in H.
  destruct H as (st & Hloop & _ & Hu & Ha & Hp).
  apply summary_loop_totals in Hloop. simpl in Hloop.
  destruct Hloop as (H1 & H2 & H3 & _).
  rewrite Ha, Hp, Hu.
  rewrite (sum_units_perm (py_sorted_perm revenue_lt true (by_artisan st))).
  rewrite (sum_units_perm (py_sorted_perm revenue_lt true (by_product st))).
  unfold sum_units in *; simpl in *. lia.
Qed.

(** C5. Whenever [generate_summary] returns, no key occurs twice in
    [by_artisan] and none occurs twice in [by_product]. *)
Theorem table_keys_unique (df : list row) (s : summary) :
  generate_summary df = Ok s ->
  NoDup (table_keys (by_artisan s)) /\ NoDup (table_keys (by_product s)).
Proof.
  intro H. apply generate_summary_inv in H.
  destruct H as (st & Hloop & _ & _ & Ha & Hp).
  apply summary_loop_totals in Hloop. simpl in Hloop.
  destruct Hloop as (_ & _ & _ & H4 & H5).
  rewrite Ha, Hp. unfold table_keys in *. split.
  - eapply Permutation_NoDup;
      [apply Permutation_map, Permutation_sym, py_sorted_perm | apply H4; constructor].
  - eapply Permutation_NoDup;
      [apply Permutation_map, Permutation_sym, py_sorted_perm | apply H5; constructor].
Qed.

(* ================================================================== *)
(** ** The order of binary64 values *)

Lemma float_le_trans (a b c : float) :
  SFleb a b = true -> SFleb b c = true -> SFleb a c = true.
Proof. float_order. Qed.

Lemma float_lt_asym (a b : float) :
  PyFloat.ltb a b = true -> PyFloat.ltb b a = false.
Proof. float_order. Qed.

Lemma float_not_lt_ge (a b : float) :
  PyFloat.is_nan a = false -> PyFloat.is_nan b = false ->
  PyFloat.ltb a b = false -> PyFloat.geb a b = true.
Proof. float_order. Qed.

Lemma float_ge_not_lt (a b : float) :
  PyFloat.geb a b = true -> PyFloat.ltb a b = false.
Proof. float_order. Qed.

Lemma float_eq_not_lt (a b : float) :
  revenue_eqb a b = true -> PyFloat.ltb b a = false.
Proof. float_order. Qed.

Lemma float_lt_cotrans (a b c : float) :
  PyFloat.is_nan a = false -> PyFloat.is_nan b = false -> PyFloat.is_nan c = false ->
  PyFloat.ltb a c = true -> PyFloat.ltb a b = true \/ PyFloat.ltb b c = true.
Proof.
  intros Ha Hb Hc H.
  destruct (PyFloat.ltb a b) eqn:E1; [now left|].
  destruct (PyFloat.ltb b c) eqn:E2; [now right|].
  apply float_not_lt_ge in E1; [|assumption..].
  apply float_not_lt_ge in E2; [|assumption..].
  unfold PyFloat.geb in *.
  pose proof (float_le_trans _ _ _ E2 E1) as T.
  apply (float_ge_not_lt a c) in T. congruence.
Qed.

(* ================================================================== *)
(** ** Ordered pairs of a list *)

Section OrdPairs.

Variable A : Type.

Lemma FOP_app (R : A -> A -> Prop) (l1 l2 : list A) :
  ForallOrdPairs R l1 -> ForallOrdPairs R l2 ->
  (forall a b, In a l1 -> In b l2 -> R a b) ->
  ForallOrdPairs R (l1 ++ l2).
Proof.
  induction 1 as [|a l1 Ha H1 IH]; simpl; intros H2 Hx; [assumption|].
  constructor.
  - apply Forall_app. split; [assumption|].
    apply Forall_forall. intros b Hb. apply Hx; [now left | assumption].
  - apply IH; [assumption|]. intros x y Hx1 Hy. apply Hx; [now right | assumption].
Qed.

Lemma FOP_rev (R : A -> A -> Prop) (l : list A) :
  ForallOrdPairs R l -> ForallOrdPairs (fun a b => R b a) (rev l).
Proof.
  induction 1 as [|a l Ha H IH]; simpl; [constructor|].
  apply FOP_app; [assumption | repeat constructor |].
  intros x y Hx [<-|[]]. apply in_rev in Hx.
  rewrite Forall_forall in Ha. now apply Ha.
Qed.

Lemma FOP_impl_In (R R' : A -> A -> Prop) (l : list A) :
  (forall a b, In a l -> In b l -> R a b -> R' a b) ->
  ForallOrdPairs R l -> ForallOrdPairs R' l.
Proof.
  intros Himp H. induction H as [|a l Ha H IH]; [constructor|].
  constructor.
  - rewrite Forall_forall in *. intros b Hb.
    apply Himp; [now left | now right | now apply Ha].
  - apply IH. intros x y Hx Hy. apply Himp; now right.
Qed.

Lemma FOP_map (B : Type) (f : A -> B) (Q : B -> B -> Prop) (l : list A) :
  ForallOrdPairs Q (map f l) -> ForallOrdPairs (fun a b => Q (f a) (f b)) l.
Proof.
  induction l as [|a l IH]; simpl; intro H; [constructor|].
  inversion H as [|? ? Ha Hl]; subst. constructor; [|now apply IH].
  rewrite Forall_forall in *. intros b Hb. apply Ha. now apply in_map.
Qed.

End OrdPairs.

(* ================================================================== *)
(** ** [sorted] is stable and orders comparable keys *)

Section SortedStable.

Variable A : Type.
Variable lt : A -> A -> bool.
(** The elements on which [lt] behaves as a strict weak order. *)
Variable ok : A -> Prop.

Hypothesis lt_asym : forall a b, lt a b = true -> lt b a = false.
Hypothesis lt_cotrans : forall a b c, ok a -> ok b -> ok c ->
  lt a c = true -> lt a b = true \/ lt b c = true.

Lemma insert_ascending (Q : A -> A -> Prop) (x : A) (l : list A) :
  ok x -> Forall ok l -> Forall (Q x) l ->
  ForallOrdPairs (ascending lt Q) l ->
  ForallOrdPairs (ascending lt Q) (insert lt x l).
Proof.
  intros Hx Hok HQ H. induction H as [|y l Hy H IH]; simpl.
  - repeat constructor.
  - inversion Hok as [|? ? Hoky Hokl]; subst.
    inversion HQ as [|? ? HQy HQl]; subst.
    destruct (lt y x) eqn:E.
    + constructor; [|now apply IH].
      eapply Permutation_Forall; [apply Permutation_sym, insert_perm|].
      constructor; [|assumption].
      split; [now apply lt_asym | congruence].
    + constructor; [|now constructor].
      constructor; [split; [assumption | now intros _]|].
      rewrite Forall_forall in *. intros z Hz.
      split; [|intros _; now apply HQl].
      destruct (lt z x) eqn:Ezx; [|reflexivity].
      destruct (@lt_cotrans z y x) as [C|C]; auto; [|congruence].
      destruct (Hy z Hz) as [Hzy _]. congruence.
Qed.

Lemma sort_asc_ascending (Q : A -> A -> Prop) (l : list A) :
  Forall ok l -> ForallOrdPairs Q l ->
  ForallOrdPairs (ascending lt Q) (sort_asc lt l).
Proof.
  intros Hok H. induction H as [|x l Hx H IH]; simpl; [constructor|].
  inversion Hok; subst.
  apply insert_ascending; auto.
  - eapply Permutation_Forall; [apply Permutation_sym, sort_asc_perm | assumption].
  - eapply Permutation_Forall; [apply Permutation_sym, sort_asc_perm | assumption].
Qed.

(** With [reverse=True]: an earlier element is never less than a later one,
    and two elements neither of which is less than the other keep the
    order of the argument. *)
Lemma py_sorted_reverse_stable (Q : A -> A -> Prop) (l : list A) :
  Forall ok l -> ForallOrdPairs Q l ->
  ForallOrdPairs (fun a b => lt a b = false /\ (lt b a = false -> Q a b))
    (py_sorted lt true l).
Proof.
  intros Hok H. unfold py_sorted.
  apply FOP_rev in H.
  apply sort_asc_ascending in H.
  - apply FOP_rev in H. exact H.
  - eapply Permutation_Forall; [apply Permutation_rev | assumption].
Qed.

End SortedStable.

(* ================================================================== *)
(** ** Keys enter a grouping dictionary in first-seen order *)

Section FirstSeen.

Variable col : string.

Lemma first_seen_le (k : value) (df : list row) :
  (first_seen col k df <= List.length df)%nat.
Proof.
  induction df as [|r df IH]; simpl; [lia|].
  destruct (has_key col k r); lia.
Qed.

Lemma first_seen_app_seen (k : value) (pre l : list row) :
  (first_seen col k pre < List.length pre)%nat ->
  first_seen col k (pre ++ l) = first_seen col k pre.
Proof.
  induction pre as [|r pre IH]; simpl; [lia|].
  destruct (has_key col k r); [reflexivity|].
  intro H. f_equal. apply IH. lia.
Qed.

Lemma first_seen_app_unseen (k : value) (pre l : list row) :
  first_seen col k pre = List.length pre ->
  first_seen col k (pre ++ l) = (List.length pre + first_seen col k l)%nat.
Proof.
  induction pre as [|r pre IH]; simpl; [reflexivity|].
  destruct (has_key col k r); [discriminate|].
  intro H. f_equal. apply IH. lia.
Qed.

Lemma has_key_iff (k : value) (r : row) :
  has_key col k r = true <-> column col r = Some k.
Proof.
  unfold has_key. destruct (column col r) as [v|]; [|split; discriminate].
  rewrite value_eqb_eq. split; congruence.
Qed.

Lemma keys_follow_nil : keys_follow col [] [].
Proof.
  repeat split; [constructor | constructor | simpl; intros; lia].
Qed.

Lemma keys_follow_step (pre : list row) (r : row) (k : value) (n : Z)
    (rev : float) (d : table) :
  column col r = Some k ->
  keys_follow col pre (table_keys d) ->
  keys_follow col (pre ++ [r]) (table_keys (group_add k n rev d)).
Proof.
  intros Hk (I1 & I2 & I3).
  assert (Hr : has_key col k r = true) by now apply has_key_iff.
  assert (Hlen : List.length (pre ++ [r]) = S (List.length pre))
    by (rewrite length_app; simpl; lia).
  assert (Hnew : forall k', (first_seen col k' (pre ++ [r]) < S (List.length pre))%nat ->
                 (first_seen col k' pre < List.length pre)%nat \/ k' = k).
  { intros k' H.
    pose proof (first_seen_le k' pre) as Hle.
    destruct (Nat.eq_dec (first_seen col k' pre) (List.length pre)) as [E|E]; [|left; lia].
    right. rewrite first_seen_app_unseen in H by assumption. simpl in H.
    destruct (has_key col k' r) eqn:E'; [|lia].
    apply has_key_iff in E'. congruence. }
  assert (Hold : Forall (fun k' => first_seen col k' (pre ++ [r]) = first_seen col k' pre
                                   /\ (first_seen col k' pre < List.length pre)%nat)
                   (table_keys d)).
  { rewrite Forall_forall in *. intros k' Hk'. split; [|now apply I1].
    apply first_seen_app_seen. now apply I1. }
  rewrite Forall_forall in Hold.
  assert (I1' : Forall (fun k' => (first_seen col k' (pre ++ [r]) < List.length (pre ++ [r]))%nat)
                  (table_keys d)).
  { apply Forall_forall. intros k' Hk'. destruct (Hold k' Hk'). lia. }
  assert (I2' : ForallOrdPairs
                  (fun k1 k2 => (first_seen col k1 (pre ++ [r]) < first_seen col k2 (pre ++ [r]))%nat)
                  (table_keys d)).
  { eapply FOP_impl_In; [|exact I2]. simpl. intros a b Ha Hb Hab.
    destruct (Hold a Ha) as [-> _]. destruct (Hold b Hb) as [-> _]. assumption. }
  rewrite keys_group_add.
  destruct (Dict.mem value_eqb k d) eqn:Em.
  - apply mem_In in Em. repeat split; [assumption | assumption |].
    intros k' H. rewrite Hlen in H.
    destruct (Hnew k' H) as [Hs| ->]; [now apply I3 | assumption].
  - apply mem_not_In in Em.
    assert (Hun : first_seen col k pre = List.length pre).
    { pose proof (first_seen_le k pre).
      destruct (Nat.eq_dec (first_seen col k pre) (List.length pre)); [assumption|].
      exfalso. apply Em. apply I3. lia. }
    assert (Hk' : first_seen col k (pre ++ [r]) = List.length pre).
    { rewrite first_seen_app_unseen by assumption. simpl. rewrite Hr. lia. }
    repeat split.
    + apply Forall_app. split; [assumption|].
      repeat constructor. lia.
    + apply FOP_app; [assumption | repeat constructor |].
      intros a b Ha [<-|[]]. destruct (Hold a Ha) as [-> Hlt]. lia.
    + intros k' H. rewrite Hlen in H. apply in_or_app.
      destruct (Hnew k' H) as [Hs| ->]; [left; now apply I3 | right; now left].
Qed.

(** The same for a whole run of the loop, for the table that [tbl] selects. *)
Variable tbl : summary -> table.
Hypothesis tbl_step : forall st st' r,
  summary_step st r = Ok st' ->
  exists k n rev, column col r = Some k /\ tbl st' = group_add k n rev (tbl st).

Lemma keys_follow_loop (df : list row) : forall pre st st',
  summary_loop st df = Ok st' ->
  keys_follow col pre (table_keys (tbl st)) ->
  keys_follow col (pre ++ df) (table_keys (tbl st')).
Proof.
  induction df as [|r df IH]; simpl; intros pre st st' H Hinv.
  - inversion H; subst. now rewrite app_nil_r.
  - destruct (summary_step st r) as [st1|] eqn:E; simpl in H; [|discriminate].
    apply tbl_step in E. destruct E as (k & n & rev & Hk & Ht).
    replace (pre ++ r :: df) with ((pre ++ [r]) ++ df)
      by (rewrite <- app_assoc; reflexivity).
    apply IH with (st := st1); [assumption|].
    rewrite Ht. now apply keys_follow_step.
Qed.

End FirstSeen.

Lemma artisan_step (st st' : summary) (r : row) :
  summary_step st r = Ok st' ->
  exists k n rev, column "artisan" r = Some k /\
                  by_artisan st' = group_add k n rev (by_artisan st).
Proof.
  intro H. apply summary_step_inv in H.
  destruct H as (rev & a & p & _ & Ha & _ & ->). simpl. eauto.
Qed.

Lemma product_step (st st' : summary) (r : row) :
  summary_step st r = Ok st' ->
  exists k n rev, column "product" r = Some k /\
                  by_product st' = group_add k n rev (by_product st).
Proof.
  intro H. apply summary_step_inv in H.
  destruct H as (rev & a & p & _ & _ & Hp & ->). simpl. eauto.
Qed.

(** A grouping dictionary sorted by [generate_summary] is ranked, provided
    none of its revenues is NaN. *)
Lemma sorted_table_ranked (col : string) (df : list row) (d : table) :
  keys_follow col df (table_keys d) ->
  no_nan (py_sorted revenue_lt true d) = true ->
  ranked col df (py_sorted revenue_lt true d).
Proof.
  intros (_ & Hord & _) Hnan. unfold ranked.
  unfold no_nan in Hnan. rewrite forallb_forall in Hnan.
  assert (Hok : Forall (fun kv => PyFloat.is_nan (revenue (snd kv)) = false) d).
  { apply Forall_forall. intros kv Hkv.
    apply negb_true_iff, Hnan.
    eapply Permutation_in; [apply Permutation_sym, py_sorted_perm | exact Hkv]. }
  apply FOP_map in Hord.
  eapply FOP_impl_In;
    [|eapply py_sorted_reverse_stable with (lt := revenue_lt)
        (ok := fun kv => PyFloat.is_nan (revenue (snd kv)) = false); [| |exact Hok|exact Hord]].
  - simpl. intros a b Ha Hb [Hlt Htie].
    apply Hnan, negb_true_iff in Ha. apply Hnan, negb_true_iff in Hb.
    split.
    + now apply float_not_lt_ge.
    + intro E. apply Htie. unfold revenue_lt. now apply float_eq_not_lt.
  - intros a b. apply float_lt_asym.
  - intros a b c. apply float_lt_cotrans.
Qed.

(* ================================================================== *)
(** ** When the aggregation returns *)

Lemma summary_step_returns (st : summary) (r : row) :
  (exists st', summary_step st r = Ok st') <-> row_ok r = true.
Proof.
  unfold row_ok, groupable, summary_step, mul_int_float, getitem, column.
  destruct (PyFloat.of_int (units_sold r)) as [f|]; simpl;
    [|split; [intros (st' & H); discriminate | discriminate]].
  destruct (Dict.get colkey_eqb (Some "artisan"%string) (fields r)) as [[a| |la]|]; simpl;
    try (split; [intros (st' & H); discriminate | discriminate]).
  all: destruct (Dict.get colkey_eqb (Some "product"%string) (fields r)) as [[p| |lp]|]; simpl;
    try (split; [intros (st' & H); discriminate | discriminate]).
  all: split; [reflexivity | eauto].
Qed.

(** [generate_summary] returns exactly on the inputs all of whose rows have
    units that fit a float and hashable grouping fields. *)
Lemma generate_summary_returns (df : list row) :
  (exists s, generate_summary df = Ok s) <-> forallb row_ok df = true.
Proof.
  unfold generate_summary.
  generalize (mkSummary PyFloat.zero 0 (Dict.empty value vals) (Dict.empty value vals)).
  induction df as [|r df IH]; simpl; intro st.
  - split; [reflexivity | eauto].
  - rewrite andb_true_iff, <- (summary_step_returns st r).
    destruct (summary_step st r) as [st1|e]; simpl.
    + rewrite <- (IH st1). split; [intros (s & H); split; eauto | intros [_ H]; exact H].
    + split; [intros (s & H); discriminate | intros [(st' & H) _]; discriminate].
Qed.

(* ================================================================== *)
(** ** Non-negative records give no NaN *)

Lemma shr_1_nonneg (mrs : shr_record) : 0 <= shr_m mrs -> 0 <= shr_m (shr_1 mrs).
Proof.
  destruct mrs as [m r s]. simpl.
  destruct m as [|[p|p|]|[p|p|]]; simpl; lia.
Qed.

Lemma iter_shr_1_nonneg (p : positive) : forall mrs,
  0 <= shr_m mrs -> 0 <= shr_m (iter_pos shr_1 p mrs).
Proof.
  induction p as [p IH|p IH|]; simpl; intros mrs H.
  - apply IH, IH, shr_1_nonneg, H.
  - apply IH, IH, H.
  - apply shr_1_nonneg, H.
Qed.

Lemma shr_fexp_nonneg (m e : Z) (l : location) :
  0 <= m -> 0 <= shr_m (fst (shr_fexp PyFloat.prec PyFloat.emax m e l)).
Proof.
  intro H. unfold shr_fexp, shr.
  assert (H0 : 0 <= shr_m (shr_record_of_loc m l))
    by (destruct l as [|[| |]]; simpl; exact H).
  destruct (fexp PyFloat.prec PyFloat.emax (Zdigits2 m + e) - e); simpl;
    [exact H0 | | exact H0].
  now apply iter_shr_1_nonneg.
Qed.

Lemma round_nearest_even_nonneg (m : Z) (l : location) :
  0 <= m -> 0 <= round_nearest_even m l.
Proof.
  intro H. unfold round_nearest_even.
  destruct l as [|[| |]]; try lia. destruct (Z.even m); lia.
Qed.

(** Rounding a non-negative mantissa gives a zero, a finite number or an
    infinity of the sign asked for. *)
Lemma binary_round_aux_sign (sx : bool) (mx ex : Z) (lx : location) :
  0 <= mx ->
  match binary_round_aux PyFloat.prec PyFloat.emax sx mx ex lx with
  | S754_zero s | S754_finite s _ _ | S754_infinity s => s = sx
  | S754_nan => False
  end.
Proof.
  intro H. unfold binary_round_aux.
  pose proof (shr_fexp_nonneg ex lx H) as H1.
  destruct (shr_fexp PyFloat.prec PyFloat.emax mx ex lx) as [mrs' e'].
  simpl in H1.
  pose proof (shr_fexp_nonneg e' loc_Exact
                (round_nearest_even_nonneg (loc_of_shr_record mrs') H1)) as H2.
  destruct (shr_fexp PyFloat.prec PyFloat.emax
              (round_nearest_even (shr_m mrs') (loc_of_shr_record mrs')) e' loc_Exact)
    as [mrs'' e''].
  simpl in H2.
  destruct (shr_m mrs'') as [|m|m]; [reflexivity | | lia].
  destruct (e'' <=? PyFloat.emax - PyFloat.prec); reflexivity.
Qed.

Lemma binary_round_sign (sx : bool) (m : positive) (e : Z) :
  match binary_round PyFloat.prec PyFloat.emax sx m e with
  | S754_zero s | S754_finite s _ _ | S754_infinity s => s = sx
  | S754_nan => False
  end.
Proof.
  unfold binary_round.
  destruct (shl_align m e _) as [mz ez].
  apply binary_round_aux_sign. lia.
Qed.

Lemma of_int_nonneg (n : Z) (f : float) :
  0 <= n -> PyFloat.of_int n = Some f -> nonneg_finite f = true.
Proof.
  unfold PyFloat.of_int, PyFloat.round_int, binary_normalize.
  intros Hn. destruct n as [|m|m]; [| |lia].
  - intro H. inversion H. reflexivity.
  - pose proof (binary_round_sign false m 0) as Hs.
    destruct (binary_round PyFloat.prec PyFloat.emax false m 0) as [s|s| |s m' e'];
      try discriminate; try contradiction.
    + intro H. inversion H. reflexivity.
    + intro H. inversion H. subst. reflexivity.
Qed.

Lemma mul_nonneg (a b : float) :
  nonneg_finite a = true -> nonneg_finite b = true -> nonneg (PyFloat.mul a b) = true.
Proof.
  destruct a as [sa|sa| |[|] ma ea], b as [sb|sb| |[|] mb eb]; simpl;
    try discriminate; try reflexivity.
  intros _ _.
  pose proof (@binary_round_aux_sign false (Z.pos (ma * mb)) (ea + eb) loc_Exact
                ltac:(lia)) as Hs.
  destruct (binary_round_aux PyFloat.prec PyFloat.emax false
              (Z.pos (ma * mb)) (ea + eb) loc_Exact) as [s|s| |s m' e'];
    try contradiction; subst; reflexivity.
Qed.

Lemma add_nonneg (a b : float) :
  nonneg a = true -> nonneg b = true -> nonneg (PyFloat.add a b) = true.
Proof.
  destruct a as [[|]|[|]| |[|] ma ea], b as [[|]|[|]| |[|] mb eb];
    try (simpl; first [discriminate | reflexivity]).
  intros _ _.
  unfold PyFloat.add, SFadd, cond_Zopp. cbv zeta.
  set (ez := Z.min ea eb).
  change (Z.pos (fst (shl_align ma ea ez)) + Z.pos (fst (shl_align mb eb ez)))
    with (Z.pos (fst (shl_align ma ea ez) + fst (shl_align mb eb ez))).
  unfold binary_normalize.
  set (m := (fst (shl_align ma ea ez) + fst (shl_align mb eb ez))%positive).
  pose proof (binary_round_sign false m ez) as Hs.
  destruct (binary_round PyFloat.prec PyFloat.emax false m ez) as [s|s| |s m' e'];
    try contradiction; subst; reflexivity.
Qed.

Lemma nonneg_not_nan (x : float) : nonneg x = true -> PyFloat.is_nan x = false.
Proof. destruct x; simpl; congruence. Qed.

Lemma Forall_update (P : vals -> Prop) (k : value) (f : vals -> vals) (d : table) :
  (forall v, P v -> P (f v)) ->
  Forall (fun kv => P (snd kv)) d ->
  Forall (fun kv => P (snd kv)) (Dict.update value_eqb k f d).
Proof.
  intros Hf H. induction H as [|[k' v] d Hv H IH]; simpl; [constructor|].
  destruct (value_eqb k k'); constructor; simpl in *; auto.
Qed.

Lemma group_add_nonneg (k : value) (n : Z) (rev : float) (d : table) :
  nonneg rev = true ->
  Forall (fun kv => nonneg (revenue (snd kv)) = true) d ->
  Forall (fun kv => nonneg (revenue (snd kv)) = true) (group_add k n rev d).
Proof.
  intros Hrev H. unfold group_add, accumulate.
  apply Forall_update with (P := fun v => nonneg (revenue v) = true).
  { intros v Hv. simpl. now apply add_nonneg. }
  apply Forall_update with (P := fun v => nonneg (revenue v) = true).
  { intros v Hv. exact Hv. }
  unfold Dict.setdefault. destruct (Dict.mem value_eqb k d); [assumption|].
  apply Forall_app. split; [assumption | repeat constructor].
Qed.

Lemma summary_loop_nonneg (df : list row) : forall st st',
  forallb nonneg_row df = true ->
  summary_loop st df = Ok st' ->
  Forall (fun kv => nonneg (revenue (snd kv)) = true) (by_artisan st) ->
  Forall (fun kv => nonneg (revenue (snd kv)) = true) (by_product st) ->
  Forall (fun kv => nonneg (revenue (snd kv)) = true) (by_artisan st') /\
  Forall (fun kv => nonneg (revenue (snd kv)) = true) (by_product st').
Proof.
  induction df as [|r df IH]; simpl; intros st st' Hdf H Ha Hp.
  - inversion H; subst. auto.
  - apply andb_true_iff in Hdf. destruct Hdf as [Hr Hdf].
    unfold nonneg_row in Hr. apply andb_true_iff in Hr. destruct Hr as [Hu Hprice].
    apply Z.leb_le in Hu.
    destruct (summary_step st r) as [st1|] eqn:E; simpl in H; [|discriminate].
    apply summary_step_inv in E. destruct E as (rev & a & p & Hrev & _ & _ & ->).
    assert (Hnn : nonneg rev = true).
    { unfold mul_int_float in Hrev.
      destruct (PyFloat.of_int (units_sold r)) as [f|] eqn:Ef; [|discriminate].
      inversion Hrev; subst. apply mul_nonneg; [|assumption].
      eapply of_int_nonneg; eauto. }
    apply (IH _ _ Hdf H); simpl; now apply group_add_nonneg.
Qed.

Lemma no_nan_of_nonneg (t : table) :
  Forall (fun kv => nonneg (revenue (snd kv)) = true) t -> no_nan t = true.
Proof.
  intro H. unfold no_nan. apply forallb_forall. intros kv Hkv.
  rewrite Forall_forall in H. apply negb_true_iff, nonneg_not_nan, H, Hkv.
Qed.

(** Non-negative units and non-negative finite prices leave no NaN in the
    tables. *)
Lemma nonneg_rows_no_nan (df : list row) (s : summary) :
  generate_summary df = Ok s ->
  forallb nonneg_row df = true ->
  no_nan (by_artisan s) = true /\ no_nan (by_product s) = true.
Proof.
  intros H Hdf. apply generate_summary_inv in H.
  destruct H as (st & Hloop & _ & _ & Ha & Hp).
  destruct (@summary_loop_nonneg df _ _ Hdf Hloop (Forall_nil _) (Forall_nil _)) as [Na Np].
  rewrite Ha, Hp. split; apply no_nan_of_nonneg.
  - eapply Permutation_Forall; [apply Permutation_sym, py_sorted_perm | exact Na].
  - eapply Permutation_Forall; [apply Permutation_sym, py_sorted_perm | exact Np].
Qed.

(** C4, as the code has it. Without pandas (the branch of lines 56-75),
    whenever [generate_summary] returns, a table
    none of whose revenues is NaN is sorted non-increasing by revenue, and
    its entries of equal revenue stand in the first-seen order of their keys
    in the input; no revenue is NaN when every record has non-negative units
    and a non-negative finite price. *)
Theorem tables_ranked_without_nan (df : list row) (s : summary) :
  generate_summary df = Ok s ->
  (no_nan (by_artisan s) = true -> ranked "artisan" df (by_artisan s)) /\
  (no_nan (by_product s) = true -> ranked "product" df (by_product s)) /\
  (forallb nonneg_row df = true ->
   no_nan (by_artisan s) = true /\ no_nan (by_product s) = true).
Proof.
  intro H. split; [|split]; [| |now apply nonneg_rows_no_nan].
  - apply generate_summary_inv in H.
    destruct H as (st & Hloop & _ & _ & Ha & _).
    rewrite Ha. intro Hnan. apply sorted_table_ranked; [|assumption].
    exact (@keys_follow_loop "artisan" by_artisan artisan_step df [] _ _ Hloop
             (keys_follow_nil "artisan")).
  - apply generate_summary_inv in H.
    destruct H as (st & Hloop & _ & _ & _ & Hp).
    rewrite Hp. intro Hnan. apply sorted_table_ranked; [|assumption].
    exact (@keys_follow_loop "product" by_product product_step df [] _ _ Hloop
             (keys_follow_nil "product")).
Qed.

Lemma tables_ranked_without_nan_witness :
  generate_summary tie_rows = Ok tie_summary /\
  forallb nonneg_row tie_rows = true /\
  no_nan (by_artisan tie_summary) = true /\
  no_nan (by_product tie_summary) = true /\
  ranked "artisan" tie_rows (by_artisan tie_summary) /\
  ranked "product" tie_rows (by_product tie_summary).
Proof.
  assert (H : generate_summary tie_rows = Ok tie_summary) by (vm_compute; reflexivity).
  destruct (tables_ranked_without_nan tie_rows H) as (Ha & Hp & Hn).
  split; [exact H|].
  split; [vm_compute; reflexivity|].
  destruct Hn as [Na Np]; [vm_compute; reflexivity|].
  split; [exact Na|]. split; [exact Np|].
  split; [apply Ha, Na | apply Hp, Np].
Defined.

(** C4, as stated, fails on a NaN price: with the rows (A, 1.0), (B, nan),
    (C, 2.0) no [<] between neighbours holds once the list is reversed, the
    sort moves nothing and the [by_artisan] table comes out in input order,
    revenue 1.0 ahead of revenue 2.0. *)
Lemma ranked_fails_with_nan :
  generate_summary nan_rows = Ok nan_summary /\
  by_artisan nan_summary =
    [(VStr "A", mkVals 1 (PyFloat.lit 1));
     (VStr "B", mkVals 1 S754_nan);
     (VStr "C", mkVals 1 (PyFloat.lit 2))] /\
  ~ ranked "artisan" nan_rows (by_artisan nan_summary).
Proof.
  split; [vm_compute; reflexivity|].
  split; [reflexivity|].
  intro H. unfold ranked in H. simpl in H.
  inversion H as [|? ? Hhd _]; subst.
  inversion Hhd as [|? ? Hnan _]; subst.
  destruct Hnan as [Hge _]. vm_compute in Hge. discriminate.
Qed.

Lemma table_units_add_up_witness :
  generate_summary scenario = Ok scenario_summary /\
  sum_units (by_artisan scenario_summary) = total_units scenario_summary /\
  sum_units (by_product scenario_summary) = total_units scenario_summary.
Proof.
  split; [vm_compute; reflexivity|].
  apply (table_units_add_up scenario). vm_compute; reflexivity.
Defined.

Lemma table_keys_unique_witness :
  generate_summary scenario = Ok scenario_summary /\
  NoDup (table_keys (by_artisan scenario_summary)) /\
  NoDup (table_keys (by_product scenario_summary)).
Proof.
  split; [vm_compute; reflexivity|].
  apply (table_keys_unique scenario). vm_compute; reflexivity.
Defined.



(** C6. On the three records (A, X, 2, 10.0), (B, X, 1, 5.0), (A, Y, 1, 3.0)
    [generate_summary] returns total_units 4, total_revenue 28.0,
    by_artisan [(A, 3, 23.0); (B, 1, 5.0)] and
    by_product [(X, 3, 25.0); (Y, 1, 3.0)]. *)
Theorem scenario_result :
  scenario =
    [ record "A" "X" 2 (PyFloat.lit 10);
      record "B" "X" 1 (PyFloat.lit 5);
      record "A" "Y" 1 (PyFloat.lit 3) ] /\
  generate_summary scenario =
    Ok {| total_revenue := PyFloat.lit 28;
          total_units := 4;
          by_artisan := [(VStr "A", mkVals 3 (PyFloat.lit 23));
                         (VStr "B", mkVals 1 (PyFloat.lit 5))];
          by_product := [(VStr "X", mkVals 3 (PyFloat.lit 25));
                         (VStr "Y", mkVals 1 (PyFloat.lit 3))] |}.
Proof. split; [reflexivity | vm_compute; reflexivity]. Qed.

(** C7. On the empty record sequence [generate_summary] raises nothing and
    returns total_revenue 0.0, total_units 0 and two empty tables. *)
Theorem empty_input_result :
  generate_summary [] =
    Ok {| total_revenue := PyFloat.zero; total_units := 0;
          by_artisan := []; by_product := [] |}.
Proof. reflexivity. Qed.

(* ================================================================== *)
(** ** Facts on [csv.DictReader] rows *)

Lemma colkey_eqb_eq (a b : colkey) : colkey_eqb a b = true <-> a = b.
Proof.
  destruct a as [s|], b as [s'|]; simpl; split; intro H;
    try discriminate; try reflexivity.
  - apply String.eqb_eq in H. now subst.
  - inversion H. apply String.eqb_refl.
Qed.

Lemma colkey_eqb_refl (a : colkey) : colkey_eqb a a = true.
Proof. now apply colkey_eqb_eq. Qed.

Section RowDict.

Implicit Types (d : Dict.t colkey value) (k : colkey).

Lemma get_set k k' (v : value) d :
  Dict.get colkey_eqb k (Dict.set colkey_eqb k' v d) =
  if colkey_eqb k k' then Some v else Dict.get colkey_eqb k d.
Proof.
  induction d as [|[k0 v0] d IH]; simpl; [reflexivity|].
  destruct (colkey_eqb k' k0) eqn:E0; simpl.
  - apply colkey_eqb_eq in E0. subst k0.
    destruct (colkey_eqb k k'); reflexivity.
  - rewrite IH. destruct (colkey_eqb k k') eqn:E1; [|reflexivity].
    apply colkey_eqb_eq in E1. subst k'. now rewrite E0.
Qed.

Variable X : Type.
Variables (f : X -> colkey) (g : X -> value).

Lemma get_fold_set_absent k (l : list X) : forall d,
  (forall x, In x l -> f x <> k) ->
  Dict.get colkey_eqb k (fold_left (fun d x => Dict.set colkey_eqb (f x) (g x) d) l d) =
  Dict.get colkey_eqb k d.
Proof.
  induction l as [|x l IH]; simpl; intros d H; [reflexivity|].
  rewrite IH by auto. rewrite get_set.
  destruct (colkey_eqb k (f x)) eqn:E; [|reflexivity].
  apply colkey_eqb_eq in E. exfalso. apply (H x); auto.
Qed.

Lemma get_fold_set_kept k (l : list X) : forall d,
  Dict.get colkey_eqb k d <> None ->
  Dict.get colkey_eqb k (fold_left (fun d x => Dict.set colkey_eqb (f x) (g x) d) l d) <> None.
Proof.
  induction l as [|x l IH]; simpl; intros d H; [assumption|].
  apply IH. rewrite get_set. destruct (colkey_eqb k (f x)); [discriminate | assumption].
Qed.

Lemma get_fold_set_present k (l : list X) : forall d,
  (exists x, In x l /\ f x = k) ->
  Dict.get colkey_eqb k (fold_left (fun d x => Dict.set colkey_eqb (f x) (g x) d) l d) <> None.
Proof.
  induction l as [|x l IH]; simpl; intros d (y & Hy & Hk); [contradiction|].
  destruct Hy as [->|Hy].
  - apply get_fold_set_kept. rewrite get_set, Hk, colkey_eqb_refl. discriminate.
  - apply IH. eauto.
Qed.

End RowDict.

Lemma in_combine_firstn (A B : Type) (a : A) (l1 : list A) : forall (l2 : list B),
  In a (firstn (List.length l2) l1) -> exists b, In (a, b) (combine l1 l2).
Proof.
  induction l1 as [|x l1 IH]; intros [|y l2]; simpl; try contradiction.
  intros [->|H]; [exists y; now left|].
  destruct (IH l2 H) as (b & Hb). exists b. now right.
Qed.

(** A column the header lacks is under no key of the row dictionary. *)
Lemma dictreader_row_absent (col : string) (fieldnames cells : list string) :
  ~ In col fieldnames ->
  Dict.get colkey_eqb (Some col) (dictreader_row fieldnames cells) = None.
Proof.
  intro Hn. unfold dictreader_row.
  assert (Hd : Dict.get colkey_eqb (Some col) (dict_zip fieldnames cells) = None).
  { unfold dict_zip. rewrite get_fold_set_absent; [reflexivity|].
    intros [a b] Hab E. inversion E; subst. apply in_combine_l in Hab. contradiction. }
  destruct (List.length fieldnames <? List.length cells)%nat.
  - rewrite get_set. simpl. exact Hd.
  - destruct (List.length cells <? List.length fieldnames)%nat; [|exact Hd].
    rewrite get_fold_set_absent with (f := fun key => Some key) (g := fun _ => VNone);
      [exact Hd|].
    intros x Hx E. inversion E; subst. apply Hn.
    rewrite <- (firstn_skipn (List.length cells) fieldnames).
    apply in_or_app. now right.
Qed.

(** A column of the header is a key of every row dictionary. *)
Lemma dictreader_row_present (col : string) (fieldnames cells : list string) :
  In col fieldnames ->
  Dict.get colkey_eqb (Some col) (dictreader_row fieldnames cells) <> None.
Proof.
  intro Hin. unfold dictreader_row.
  assert (Hd : In col (firstn (List.length cells) fieldnames) ->
               Dict.get colkey_eqb (Some col) (dict_zip fieldnames cells) <> None).
  { intro H. destruct (in_combine_firstn _ _ _ H) as (b & Hb).
    unfold dict_zip. apply get_fold_set_present. exists (col, b). auto. }
  destruct (List.length fieldnames <? List.length cells)%nat eqn:E1.
  - rewrite get_set. simpl. apply Hd.
    apply Nat.ltb_lt in E1. rewrite firstn_all2 by lia. assumption.
  - apply Nat.ltb_ge in E1.
    destruct (List.length cells <? List.length fieldnames)%nat eqn:E2.
    + rewrite <- (firstn_skipn (List.length cells) fieldnames) in Hin.
      apply in_app_or in Hin. destruct Hin as [H|H].
      * apply get_fold_set_kept with (f := fun key => Some key) (g := fun _ => VNone).
        now apply Hd.
      * apply get_fold_set_present with (f := fun key => Some key) (g := fun _ => VNone).
        eauto.
    + apply Nat.ltb_ge in E2. apply Hd. rewrite firstn_all2 by lia. assumption.
Qed.

(* ================================================================== *)
(** ** Errors of the loader and of the aggregation *)

Section Errors.

Variable py : builtins.

Lemma py_int_raises (v : value) (e : exn) :
  py_int py v = Raise e -> conversion_error e.
Proof.
  destruct v as [s| |l]; simpl.
  - destruct (int_of_str py s); [discriminate|]. intro H. inversion H. exact I.
  - intro H. inversion H. exact I.
  - intro H. inversion H. exact I.
Qed.

Lemma py_float_raises (v : value) (e : exn) :
  py_float py v = Raise e -> conversion_error e.
Proof.
  destruct v as [s| |l]; simpl.
  - destruct (float_of_str py s); [discriminate|]. intro H. inversion H. exact I.
  - intro H. inversion H. exact I.
  - intro H. inversion H. exact I.
Qed.

(** A row fails to convert on a missing numeric column or inside [int] or
    [float]. *)
Lemma convert_row_raises (d : Dict.t colkey value) (e : exn) :
  convert_row py d = Raise e ->
  (exists key, e = KeyError key /\
               (key = "units_sold"%string \/ key = "unit_price"%string) /\
               Dict.get colkey_eqb (Some key) d = None) \/
  conversion_error e.
Proof.
  unfold convert_row, dict_getitem.
  destruct (Dict.get colkey_eqb (Some "units_sold"%string) d) as [u|] eqn:Eu; simpl.
  - destruct (py_int py u) as [n|e1] eqn:En; simpl.
    + destruct (Dict.get colkey_eqb (Some "unit_price"%string) d) as [p|] eqn:Ep; simpl.
      * destruct (py_float py p) as [x|e2] eqn:Ex; simpl; [discriminate|].
        intro H. inversion H; subst. right. eapply py_float_raises; eauto.
      * intro H. inversion H; subst. left. eauto.
    + intro H. inversion H; subst. right. eapply py_int_raises; eauto.
  - intro H. inversion H; subst. left. eauto.
Qed.

Lemma convert_row_ok (d : Dict.t colkey value) (r : row) :
  convert_row py d = Ok r ->
  fields r = d /\
  Dict.get colkey_eqb (Some "units_sold"%string) d <> None /\
  Dict.get colkey_eqb (Some "unit_price"%string) d <> None.
Proof.
  unfold convert_row, dict_getitem.
  destruct (Dict.get colkey_eqb (Some "units_sold"%string) d) as [u|]; simpl; [|discriminate].
  destruct (py_int py u) as [n|]; simpl; [|discriminate].
  destruct (Dict.get colkey_eqb (Some "unit_price"%string) d) as [p|]; simpl; [|discriminate].
  destruct (py_float py p) as [x|]; simpl; [|discriminate].
  intro H. inversion H; subst. simpl. repeat split; discriminate.
Qed.



Lemma convert_rows_error (ds : list (Dict.t colkey value)) (e : exn) :
  convert_rows py ds = Raise e ->
  exists d, In d ds /\ convert_row py d = Raise e.
Proof.
  induction ds as [|d0 ds IH]; simpl; [discriminate|].
  destruct (convert_row py d0) as [r0|e0] eqn:E0; simpl.
  - destruct (convert_rows py ds) as [rows|e1]; simpl; [discriminate|].
    intro H. inversion H; subst.
    destruct (IH eq_refl) as (d & Hd & He). eauto.
  - intro H. inversion H; subst. eauto.
Qed.

Lemma convert_rows_ok (ds : list (Dict.t colkey value)) : forall rows,
  convert_rows py ds = Ok rows ->
  Forall2 (fun d r => convert_row py d = Ok r) ds rows.
Proof.
  induction ds as [|d0 ds IH]; simpl; intros rows H.
  - inversion H. constructor.
  - destruct (convert_row py d0) as [r0|] eqn:E0; simpl in H; [|discriminate].
    destruct (convert_rows py ds) as [rows'|]; simpl in H; [|discriminate].
    inversion H; subst. constructor; auto.
Qed.

End Errors.

Lemma summary_step_raises (st : summary) (r : row) (e : exn) :
  summary_step st r = Raise e ->
  (exists key, e = KeyError key /\ column key r = None) \/
  (exists msg, e = TypeError msg) \/
  (exists msg, e = OverflowError msg).
Proof.
  unfold summary_step, getitem, column, mul_int_float.
  destruct (PyFloat.of_int (units_sold r)); simpl;
    [|intro H; inversion H; subst; right; right; eauto].
  destruct (Dict.get colkey_eqb (Some "artisan"%string) (fields r)) as [a|] eqn:Ea; simpl;
    [|intro H; inversion H; subst; left; eauto].
  destruct a as [sa| |la]; simpl;
    try (intro H; inversion H; subst; right; left; eauto; fail).
  all: destruct (Dict.get colkey_eqb (Some "product"%string) (fields r)) as [p|] eqn:Ep; simpl;
    [|intro H; inversion H; subst; left; eauto].
  all: destruct p as [sp| |lp]; simpl;
    try discriminate;
    intro H; inversion H; subst; right; left; eauto.
Qed.

Lemma summary_loop_raises (df : list row) : forall st e,
  summary_loop st df = Raise e ->
  exists r,
    In r df /\
    ((exists key, e = KeyError key /\ column key r = None) \/
     (exists msg, e = TypeError msg) \/
     (exists msg, e = OverflowError msg)).
Proof.
  induction df as [|r df IH]; simpl; intros st e H; [discriminate|].
  destruct (summary_step st r) as [st1|e1] eqn:E; simpl in H.
  - destruct (IH _ _ H) as (r' & Hin & Hc). exists r'. auto.
  - inversion H; subst. exists r. split; [now left|].
    eapply summary_step_raises; eauto.
Qed.

Lemma generate_summary_raises (df : list row) (e : exn) :
  generate_summary df = Raise e ->
  exists r,
    In r df /\
    ((exists key, e = KeyError key /\ column key r = None) \/
     (exists msg, e = TypeError msg) \/
     (exists msg, e = OverflowError msg)).
Proof.
  unfold generate_summary.
  destruct (summary_loop _ df) as [st|e1] eqn:E; simpl; [discriminate|].
  intro H. inversion H; subst. eapply summary_loop_raises; eauto.
Qed.

(** The first row of a summarised input has both grouping columns. *)
Lemma generate_summary_ok_columns (r : row) (df : list row) (s : summary) :
  generate_summary (r :: df) = Ok s ->
  column "artisan" r <> None /\ column "product" r <> None.
Proof.
  unfold generate_summary. simpl.
  destruct (summary_step _ r) as [st1|] eqn:E; simpl; [|discriminate].
  intros _. apply summary_step_inv in E.
  destruct E as (rev & a & p & _ & Ha & Hp & _).
  rewrite Ha, Hp. split; discriminate.
Qed.

(* ================================================================== *)
(** ** Exit status of a run *)

Section Runs.

Variable py : builtins.
Variable os : system.

(** A run whose loader raises an [Exception] ends in the handler. *)
Lemma run_loader_error (cells : list (list string)) (e : exn) :
  path_exists os INPUT = true ->
  read_csv os INPUT = Ok cells ->
  convert_rows py (dictreader cells) = Raise e ->
  is_Exception e = true ->
  load_data py os INPUT console0 = (console0, Raise e) /\
  run py os = (unexpected py e, 1).
Proof.
  intros Hex Hread Hconv Hexc.
  assert (Hload : load_data py os INPUT console0 = (console0, Raise e)).
  { unfold load_data. rewrite Hex. simpl. unfold bind, lift.
    rewrite Hread, Hconv. reflexivity. }
  split; [exact Hload|].
  unfold run, main, try_except, bind. rewrite Hload, Hexc. reflexivity.
Qed.

(** A run whose loader returns and whose aggregation raises an [Exception]
    ends in the handler too. *)
Lemma run_summary_error (cells : list (list string)) (rows : list row) (e : exn) :
  path_exists os INPUT = true ->
  read_csv os INPUT = Ok cells ->
  convert_rows py (dictreader cells) = Ok rows ->
  generate_summary rows = Raise e ->
  is_Exception e = true ->
  run py os = (unexpected py e, 1).
Proof.
  intros Hex Hread Hconv Hsum Hexc.
  assert (Hload : load_data py os INPUT console0 = (console0, Ok rows)).
  { unfold load_data. rewrite Hex. simpl. unfold bind, lift.
    rewrite Hread, Hconv. reflexivity. }
  unfold run, main, try_except, bind, lift. rewrite Hload, Hsum, Hexc. reflexivity.
Qed.

(** C8. When the input file does not exist, [load_data] prints
    "ERROR: input file sales_data.csv not found" on the error stream and
    leaves through [sys.exit(2)]; the handler of [main] does not catch it
    and the run ends with exit status 2. *)
Theorem missing_input_exits_2 :
  path_exists os INPUT = false ->
  load_data py os INPUT console0 =
    (mkConsole [] ["ERROR: input file sales_data.csv not found"%string] [] [],
     Raise (SystemExit 2)) /\
  run py os =
    (mkConsole [] ["ERROR: input file sales_data.csv not found"%string] [] [], 2).
Proof.
  intro Hex.
  assert (Hload : load_data py os INPUT console0 =
                  (mkConsole [] ["ERROR: input file sales_data.csv not found"%string] [] [],
                   Raise (SystemExit 2))).
  { unfold load_data. rewrite Hex. reflexivity. }
  split; [exact Hload|].
  unfold run, main, try_except, bind. rewrite Hload. reflexivity.
Qed.


End Runs.

Lemma dictreader_rows (fieldnames : list string) (data : list (list string))
    (d : Dict.t colkey value) :
  In d (dictreader (fieldnames :: data)) ->
  exists cells, d = dictreader_row fieldnames cells.
Proof.
  simpl. intro H. apply in_map_iff in H. destruct H as (cells & <- & _). eauto.
Qed.

(** C10, as the code has it. When the input file exists, its header lacks
    one of the required columns and the reader yields at least one data row,
    an error reaches the handler of [main] (the lookup of a column the header
    lacks, or a conversion or overflow error met before that lookup, and the
    lookup of 'units_sold' when that is a missing column), and the run ends
    with exit status 1. *)
Theorem missing_column_exits_1 (py : builtins) (os : system)
    (fieldnames : list string) (data : list (list string)) (col : string) :
  path_exists os INPUT = true ->
  read_csv os INPUT = Ok (fieldnames :: data) ->
  In col required_columns ->
  ~ In col fieldnames ->
  dictreader (fieldnames :: data) <> [] ->
  exists e,
    lookup_or_earlier fieldnames e /\
    (~ In "units_sold"%string fieldnames -> e = KeyError "units_sold") /\
    run py os = (unexpected py e, 1).
Proof.
  intros Hex Hread Hreq Hmiss Hrows.
  destruct (dictreader (fieldnames :: data)) as [|d1 ds] eqn:Eds; [contradiction|].
  assert (Hall : forall d, In d (d1 :: ds) -> exists cells, d = dictreader_row fieldnames cells).
  { intros d Hd. rewrite <- Eds in Hd. now apply dictreader_rows with (data := data). }
  destruct (convert_rows py (d1 :: ds)) as [rows|e] eqn:Econv.
  - (* the loader returns: the aggregation meets the missing column *)
    pose proof (convert_rows_ok _ _ Econv) as HF2.
    inversion HF2 as [|? r1 ? rs Hr1 Hrs]; subst.
    apply convert_row_ok in Hr1. destruct Hr1 as (Hf & Hu & Hp).
    destruct (Hall d1 (or_introl eq_refl)) as (cells & Hd1).
    assert (HF : Forall2 (fun d r => fields r = d) (d1 :: ds) (r1 :: rs)).
    { eapply Forall2_impl; [|exact HF2]. intros a b Hab.
      now apply convert_row_ok in Hab. }
    destruct (generate_summary (r1 :: rs)) as [s|e] eqn:Esum.
    + exfalso. apply generate_summary_ok_columns in Esum.
      destruct Esum as [Ha Hpr]. unfold column in Ha, Hpr. rewrite Hf in Ha, Hpr.
      assert (Habs : Dict.get colkey_eqb (Some col) d1 = None)
        by (rewrite Hd1; now apply dictreader_row_absent).
      simpl in Hreq. destruct Hreq as [<-|[<-|[<-|[<-|[]]]]]; contradiction.
    + assert (Hclass : lookup_or_earlier fieldnames e).
      { apply generate_summary_raises in Esum.
        destruct Esum as (r & Hr & [(key & -> & Hk)|[(msg & ->)|(msg & ->)]]); simpl; auto.
        intro Hin.
        assert (Hd : exists cells', fields r = dictreader_row fieldnames cells').
        { clear - HF Hr Hall. revert Hr Hall.
          induction HF as [|d0 r0 ds0 rs0 H0 HF IH]; simpl; [contradiction|].
          intros [->|Hr] Hall.
          - destruct (Hall d0 (or_introl eq_refl)) as (c & Hc). exists c. congruence.
          - apply IH; auto. }
        destruct Hd as (cells' & Hd). unfold column in Hk. rewrite Hd in Hk.
        now apply (dictreader_row_present key fieldnames cells'). }
      exists e. split; [assumption|]. split.
      * intro Hno. exfalso. apply Hu. rewrite Hd1. now apply dictreader_row_absent.
      * rewrite <- Eds in Econv.
        apply (@run_summary_error py os _ _ _ Hex Hread Econv Esum).
        destruct e; simpl in Hclass; try contradiction; reflexivity.
  - (* the loader raises *)
    destruct (convert_rows_error _ _ Econv) as (d & Hd & He).
    destruct (Hall d Hd) as (cells & Hcells).
    assert (Hclass : lookup_or_earlier fieldnames e).
    { destruct (convert_row_raises _ _ He) as [(key & -> & _ & Hget)|Hc].
      - simpl. intro Hin. rewrite Hcells in Hget.
        now apply (dictreader_row_present key fieldnames cells).
      - destruct e; simpl in *; auto. }
    exists e. split; [assumption|]. split.
    + intro Hno.
      destruct (Hall d1 (or_introl eq_refl)) as (c1 & Hd1).
      simpl in Econv. unfold convert_row at 1, dict_getitem in Econv.
      rewrite Hd1 in Econv at 1.
      rewrite dictreader_row_absent in Econv by assumption.
      simpl in Econv. congruence.
    + rewrite <- Eds in Econv.
      apply (@run_loader_error py os _ _ Hex Hread Econv).
      destruct e; simpl in Hclass; try contradiction; reflexivity.
Qed.

Lemma missing_input_exits_2_witness :
  path_exists (machine None) INPUT = false /\
  run sample_py (machine None) =
    (mkConsole [] ["ERROR: input file sales_data.csv not found"%string] [] [], 2).
Proof.
  split; [reflexivity|].
  apply (missing_input_exits_2 sample_py (machine None)). reflexivity.
Defined.


Lemma missing_column_exits_1_witness :
  exists e,
    lookup_or_earlier ["artisan"; "product"; "units_sold"]%string e /\
    (~ In "units_sold"%string ["artisan"; "product"; "units_sold"]%string ->
     e = KeyError "units_sold") /\
    run sample_py (machine (Some no_price_file)) = (unexpected sample_py e, 1).
Proof.
  apply (@missing_column_exits_1 sample_py (machine (Some no_price_file))
           ["artisan"; "product"; "units_sold"]%string
           [["A"; "X"; "2"]]%string "unit_price"%string).
  - reflexivity.
  - reflexivity.
  - simpl. right. right. right. left. reflexivity.
  - simpl. intros [H|[H|[H|[]]]]; discriminate.
  - simpl. discriminate.
Defined.

(** C10, as stated, fails on a file that holds only a header without
    'unit_price': no row is read, no column is looked up, the report is
    written and the run ends with exit status 0. *)
Lemma header_only_exits_0 :
  path_exists (machine (Some header_only_file)) INPUT = true /\
  read_csv (machine (Some header_only_file)) INPUT =
    Ok [["artisan"; "product"; "units_sold"]%string] /\
  In "unit_price"%string required_columns /\
  ~ In "unit_price"%string ["artisan"; "product"; "units_sold"]%string /\
  stderr (fst (run sample_py (machine (Some header_only_file)))) = [] /\
  snd (run sample_py (machine (Some header_only_file))) = 0 /\
  snd (run sample_py (machine (Some header_only_file))) <> 1.
Proof.
  split; [reflexivity|]. split; [reflexivity|].
  split; [simpl; tauto|].
  split; [simpl; intros [H|[H|[H|[]]]]; discriminate|].
  split; [vm_compute; reflexivity|].
  split; [vm_compute; reflexivity|].
  vm_compute. discriminate.
Qed.

(** The rule under the title is ["="*60]. *)
Lemma rule60_length : String.length rule60 = 60%nat.
Proof. reflexivity. Qed.

(* ================================================================== *)
(** ** Where the aggregation fails *)

Lemma row_error_ok (r : row) : row_error r = None <-> row_ok r = true.
Proof.
  unfold row_error, row_ok, groupable.
  destruct (PyFloat.of_int (units_sold r)); [|split; discriminate].
  destruct (column "artisan" r) as [[a| |la]|]; simpl; try (split; discriminate).
  all: destruct (column "product" r) as [[p| |lp]|]; simpl;
    split; try discriminate; reflexivity.
Qed.

Lemma summary_step_error (st : summary) (r : row) (e : exn) :
  row_error r = Some e -> summary_step st r = Raise e.
Proof.
  unfold row_error, summary_step, mul_int_float, getitem, column.
  destruct (PyFloat.of_int (units_sold r)); simpl; [|congruence].
  destruct (Dict.get colkey_eqb (Some "artisan"%string) (fields r)) as [[a| |la]|]; simpl;
    try congruence.
  all: destruct (Dict.get colkey_eqb (Some "product"%string) (fields r)) as [[p| |lp]|]; simpl;
    congruence.
Qed.

Lemma summary_loop_first_error (pre : list row) : forall st r post e,
  forallb row_ok pre = true ->
  row_error r = Some e ->
  summary_loop st (pre ++ r :: post) = Raise e.
Proof.
  induction pre as [|r0 pre IH]; simpl; intros st r post e Hpre He.
  - now rewrite (summary_step_error st r He).
  - apply andb_true_iff in Hpre. destruct Hpre as [H0 Hpre].
    apply (summary_step_returns st) in H0. destruct H0 as (st1 & ->). simpl.
    now apply IH.
Qed.

Lemma summary_loop_error_split (df : list row) : forall st e,
  summary_loop st df = Raise e ->
  exists pre r post,
    df = pre ++ r :: post /\ forallb row_ok pre = true /\ row_error r = Some e.
Proof.
  induction df as [|r df IH]; simpl; intros st e H; [discriminate|].
  destruct (summary_step st r) as [st1|e1] eqn:E; simpl in H.
  - destruct (IH _ _ H) as (pre & r' & post & -> & Hpre & He).
    exists (r :: pre), r', post. simpl. repeat split; try assumption.
    apply andb_true_iff. split; [|assumption].
    apply (summary_step_returns st). eauto.
  - inversion H; subst. exists [], r, df. repeat split.
    destruct (row_error r) as [e'|] eqn:Er.
    + rewrite (summary_step_error st r Er) in E. congruence.
    + apply row_error_ok, (summary_step_returns st) in Er.
      destruct Er as (st' & Hst). congruence.
Qed.

(** X1. [generate_summary] returns exactly when every row has units that fit a
    float and hashable 'artisan' and 'product' fields; otherwise it raises
    exactly the error of the first row on which an iteration fails:
    OverflowError for units that do not fit a float, else KeyError or
    TypeError for the 'artisan' field, else for the 'product' field; the rows
    after it are not looked at. *)
Theorem generate_summary_outcome (df : list row) :
  ((exists s, generate_summary df = Ok s) <-> forallb row_ok df = true) /\
  (forall e,
     generate_summary df = Raise e <->
     exists pre r post,
       df = pre ++ r :: post /\ forallb row_ok pre = true /\ row_error r = Some e).
Proof.
  split; [apply generate_summary_returns|].
  intro e. unfold generate_summary. split.
  - destruct (summary_loop _ df) as [st|e1] eqn:E; simpl; [discriminate|].
    intro H. inversion H; subst. eapply summary_loop_error_split; eauto.
  - intros (pre & r & post & -> & Hpre & He).
    rewrite summary_loop_first_error with (e := e); auto.
Qed.

Lemma generate_summary_outcome_witness :
  generate_summary huge_rows =
    Raise (OverflowError "int too large to convert to float").
Proof.
  apply (proj2 (generate_summary_outcome huge_rows)).
  exists [record "A" "X" 1 (PyFloat.lit 1)],
         (record "B" "X" (2 ^ 1024) (PyFloat.lit 1)),
         [mkRow 1 (PyFloat.lit 1) []].
  split; [reflexivity|]. split; vm_compute; reflexivity.
Defined.

(* ================================================================== *)
(** ** What a table entry holds *)

Section Entries.

Lemma get_update (k k' : value) (f : vals -> vals) (d : table) :
  Dict.get value_eqb k' (Dict.update value_eqb k f d) =
  if value_eqb k' k then option_map f (Dict.get value_eqb k' d)
  else Dict.get value_eqb k' d.
Proof.
  induction d as [|[k0 v0] d IH]; simpl; [now destruct (value_eqb k' k)|].
  destruct (value_eqb k k0) eqn:E0; simpl.
  - apply value_eqb_eq in E0. subst k0.
    destruct (value_eqb k' k); reflexivity.
  - rewrite IH. destruct (value_eqb k' k0) eqn:E1; [|reflexivity].
    apply value_eqb_eq in E1. subst k0.
    destruct (value_eqb k' k) eqn:E2; [|reflexivity].
    apply value_eqb_eq in E2. subst k'. rewrite value_eqb_refl in E0. discriminate.
Qed.

Lemma get_app_absent (k : value) (d1 d2 : table) :
  Dict.get value_eqb k d1 = None ->
  Dict.get value_eqb k (d1 ++ d2) = Dict.get value_eqb k d2.
Proof.
  induction d1 as [|[k0 v0] d1 IH]; simpl; [reflexivity|].
  destruct (value_eqb k k0); [discriminate | exact IH].
Qed.

Lemma get_app_present (k : value) (d1 d2 : table) :
  Dict.get value_eqb k d1 <> None ->
  Dict.get value_eqb k (d1 ++ d2) = Dict.get value_eqb k d1.
Proof.
  induction d1 as [|[k0 v0] d1 IH]; simpl; [congruence|].
  destruct (value_eqb k k0); [reflexivity | exact IH].
Qed.

Lemma entry_setdefault (k k' : value) (d : table) :
  entry (Dict.setdefault value_eqb k (mkVals 0 PyFloat.zero) d) k' = entry d k'.
Proof.
  unfold entry, Dict.setdefault, Dict.mem.
  destruct (Dict.get value_eqb k d) as [v|] eqn:E; [reflexivity|].
  destruct (Dict.get value_eqb k' d) as [v'|] eqn:E'.
  - rewrite get_app_present by congruence. now rewrite E'.
  - rewrite get_app_absent by assumption. simpl.
    destruct (value_eqb k' k); reflexivity.
Qed.

Lemma get_setdefault_some (k : value) (d : table) :
  Dict.get value_eqb k (Dict.setdefault value_eqb k (mkVals 0 PyFloat.zero) d) =
  Some (entry d k).
Proof.
  unfold entry, Dict.setdefault, Dict.mem.
  destruct (Dict.get value_eqb k d) as [v|] eqn:E; [exact E|].
  rewrite get_app_absent by assumption. simpl. now rewrite value_eqb_refl.
Qed.

Lemma entry_group_add (k k' : value) (n : Z) (rev : float) (d : table) :
  entry (group_add k n rev d) k' =
  if value_eqb k' k
  then mkVals (units (entry d k') + n) (PyFloat.add (revenue (entry d k')) rev)
  else entry d k'.
Proof.
  unfold group_add, accumulate.
  unfold entry at 1. rewrite !get_update.
  destruct (value_eqb k' k) eqn:E.
  - apply value_eqb_eq in E. subst k'.
    rewrite get_setdefault_some. reflexivity.
  - fold (entry (Dict.setdefault value_eqb k (mkVals 0 PyFloat.zero) d) k').
    apply entry_setdefault.
Qed.

Variable col : string.
Variable tbl : summary -> table.
Hypothesis tbl_step : forall st st' r,
  summary_step st r = Ok st' ->
  exists k rev,
    column col r = Some k /\
    mul_int_float (units_sold r) (unit_price r) = Ok rev /\
    tbl st' = group_add k (units_sold r) rev (tbl st).

Lemma entry_loop (k : value) (df : list row) : forall st st',
  summary_loop st df = Ok st' ->
  exists revs,
    Forall2 (fun r x => mul_int_float (units_sold r) (unit_price r) = Ok x)
      (rows_of col k df) revs /\
    units (entry (tbl st') k) =
      units (entry (tbl st) k) + Zsum (map units_sold (rows_of col k df)) /\
    revenue (entry (tbl st') k) =
      fold_left PyFloat.add revs (revenue (entry (tbl st) k)).
Proof.
  induction df as [|r df IH]; simpl; intros st st' H.
  - inversion H; subst. exists []. repeat split; [constructor | simpl; lia].
  - destruct (summary_step st r) as [st1|] eqn:E; simpl in H; [|discriminate].
    apply tbl_step in E. destruct E as (k0 & rev & Hk & Hrev & Ht).
    destruct (IH _ _ H) as (revs & HF & Hu & Hr).
    rewrite Ht, entry_group_add in Hu, Hr.
    unfold has_key. rewrite Hk.
    destruct (value_eqb k0 k) eqn:E0.
    + apply value_eqb_eq in E0. subst k0. rewrite value_eqb_refl in Hu, Hr.
      simpl in Hu, Hr. exists (rev :: revs). simpl.
      repeat split; [now constructor | lia | exact Hr].
    + assert (E1 : value_eqb k k0 = false).
      { apply value_eqb_neq. intro. subst. rewrite value_eqb_refl in E0. discriminate. }
      rewrite E1 in Hu, Hr. exists revs. repeat split; assumption.
Qed.

End Entries.

Lemma get_In_NoDup (k : value) (v : vals) (d : table) :
  NoDup (table_keys d) -> In (k, v) d -> Dict.get value_eqb k d = Some v.
Proof.
  unfold table_keys. induction d as [|[k0 v0] d IH]; simpl; [contradiction|].
  intros Hnd [H|H].
  - inversion H; subst. now rewrite value_eqb_refl.
  - inversion Hnd as [|? ? Hnotin Hnd']; subst.
    destruct (value_eqb k k0) eqn:E.
    + apply value_eqb_eq in E. subst k0. exfalso. apply Hnotin.
      change k with (fst (k, v)). now apply in_map.
    + now apply IH.
Qed.

Lemma artisan_step_full (st st' : summary) (r : row) :
  summary_step st r = Ok st' ->
  exists k rev,
    column "artisan" r = Some k /\
    mul_int_float (units_sold r) (unit_price r) = Ok rev /\
    by_artisan st' = group_add k (units_sold r) rev (by_artisan st).
Proof.
  intro H. apply summary_step_inv in H.
  destruct H as (rev & a & p & Hrev & Ha & _ & ->). simpl. eauto.
Qed.

Lemma product_step_full (st st' : summary) (r : row) :
  summary_step st r = Ok st' ->
  exists k rev,
    column "product" r = Some k /\
    mul_int_float (units_sold r) (unit_price r) = Ok rev /\
    by_product st' = group_add k (units_sold r) rev (by_product st).
Proof.
  intro H. apply summary_step_inv in H.
  destruct H as (rev & a & p & Hrev & _ & Hp & ->). simpl. eauto.
Qed.

Lemma sorted_entry (col : string) (tbl : summary -> table) (df : list row)
    (st : summary) (k : value) (v : vals) :
  (forall st st' r,
     summary_step st r = Ok st' ->
     exists k rev,
       column col r = Some k /\
       mul_int_float (units_sold r) (unit_price r) = Ok rev /\
       tbl st' = group_add k (units_sold r) rev (tbl st)) ->
  tbl (mkSummary PyFloat.zero 0 [] []) = [] ->
  NoDup (table_keys (tbl st)) ->
  summary_loop (mkSummary PyFloat.zero 0 [] []) df = Ok st ->
  In (k, v) (py_sorted revenue_lt true (tbl st)) ->
  exists revs,
    Forall2 (fun r x => mul_int_float (units_sold r) (unit_price r) = Ok x)
      (rows_of col k df) revs /\
    units v = Zsum (map units_sold (rows_of col k df)) /\
    revenue v = float_sum revs.
Proof.
  intros Hstep H0 Hnd Hloop Hin.
  assert (Hd : In (k, v) (tbl st))
    by (eapply Permutation_in; [apply py_sorted_perm | exact Hin]).
  apply get_In_NoDup in Hd; [|assumption].
  destruct (@entry_loop col tbl Hstep k df _ _ Hloop) as (revs & HF & Hu & Hr).
  unfold entry in Hu at 1, Hr at 1. rewrite Hd in Hu, Hr.
  unfold entry in Hu, Hr. rewrite H0 in Hu, Hr. simpl in Hu, Hr.
  exists revs. repeat split; assumption.
Qed.

(** X3. Every entry of [by_artisan] holds the units of the records of its
    artisan, summed, and their revenues, added up in input order from 0.0;
    the same for [by_product]. *)
Theorem table_entry_aggregates (df : list row) (s : summary) (k : value) (v : vals) :
  generate_summary df = Ok s ->
  (In (k, v) (by_artisan s) ->
   exists revs,
     Forall2 (fun r x => mul_int_float (units_sold r) (unit_price r) = Ok x)
       (rows_of "artisan" k df) revs /\
     units v = Zsum (map units_sold (rows_of "artisan" k df)) /\
     revenue v = float_sum revs) /\
  (In (k, v) (by_product s) ->
   exists revs,
     Forall2 (fun r x => mul_int_float (units_sold r) (unit_price r) = Ok x)
       (rows_of "product" k df) revs /\
     units v = Zsum (map units_sold (rows_of "product" k df)) /\
     revenue v = float_sum revs).
Proof.
  intro H. apply generate_summary_inv in H.
  destruct H as (st & Hloop & _ & _ & Ha & Hp).
  pose proof (@summary_loop_totals df _ _ Hloop) as (_ & _ & _ & Na & Np).
  simpl in Na, Np. rewrite Ha, Hp. split; intro Hin.
  - apply (@sorted_entry "artisan" by_artisan df st k v artisan_step_full eq_refl
             (Na (NoDup_nil _)) Hloop Hin).
  - apply (@sorted_entry "product" by_product df st k v product_step_full eq_refl
             (Np (NoDup_nil _)) Hloop Hin).
Qed.

Lemma table_entry_aggregates_witness :
  generate_summary scenario = Ok scenario_summary /\
  In (VStr "A", mkVals 3 (PyFloat.lit 23)) (by_artisan scenario_summary) /\
  exists revs,
    Forall2 (fun r x => mul_int_float (units_sold r) (unit_price r) = Ok x)
      (rows_of "artisan" (VStr "A") scenario) revs /\
    3 = Zsum (map units_sold (rows_of "artisan" (VStr "A") scenario)) /\
    PyFloat.lit 23 = float_sum revs.
Proof.
  assert (H : generate_summary scenario = Ok scenario_summary) by (vm_compute; reflexivity).
  assert (Hin : In (VStr "A", mkVals 3 (PyFloat.lit 23)) (by_artisan scenario_summary))
    by (left; reflexivity).
  split; [exact H|]. split; [exact Hin|].
  exact (proj1 (@table_entry_aggregates scenario scenario_summary (VStr "A")
                   (mkVals 3 (PyFloat.lit 23)) H) Hin).
Defined.


(* ================================================================== *)
(** ** Which keys a table has *)

Lemma first_seen_lt_iff (col : string) (k : value) (df : list row) :
  (first_seen col k df < List.length df)%nat <->
  exists r, In r df /\ column col r = Some k.
Proof.
  induction df as [|r df IH]; simpl.
  - split; [lia | intros (r & [] & _)].
  - destruct (has_key col k r) eqn:E.
    + split; [|lia]. intros _. exists r. split; [now left|].
      now apply has_key_iff.
    + rewrite <- Nat.succ_lt_mono, IH. split.
      * intros (r' & Hin & Hk). eauto.
      * intros (r' & [<-|Hin] & Hk); [|eauto].
        apply has_key_iff in Hk. congruence.
Qed.

Lemma keys_follow_cover (col : string) (df : list row) (ks : list value) (k : value) :
  keys_follow col df ks ->
  In k ks <-> exists r, In r df /\ column col r = Some k.
Proof.
  intros (I1 & _ & I3). rewrite <- first_seen_lt_iff. split; [|apply I3].
  rewrite Forall_forall in I1. apply I1.
Qed.

(** X4. The keys of [by_artisan] are exactly the values found in the 'artisan'
    field of some record, and those of [by_product] the values found in the
    'product' field. *)
Theorem table_keys_cover (df : list row) (s : summary) (k : value) :
  generate_summary df = Ok s ->
  (In k (table_keys (by_artisan s)) <->
   exists r, In r df /\ column "artisan" r = Some k) /\
  (In k (table_keys (by_product s)) <->
   exists r, In r df /\ column "product" r = Some k).
Proof.
  intro H. apply generate_summary_inv in H.
  destruct H as (st & Hloop & _ & _ & Ha & Hp).
  pose proof (@keys_follow_loop "artisan" by_artisan artisan_step df [] _ _ Hloop
                (keys_follow_nil "artisan")) as Ka.
  pose proof (@keys_follow_loop "product" by_product product_step df [] _ _ Hloop
                (keys_follow_nil "product")) as Kp.
  simpl in Ka, Kp. rewrite Ha, Hp. unfold table_keys in *. split.
  - rewrite <- (keys_follow_cover k Ka). split; apply Permutation_in, Permutation_map.
    + apply py_sorted_perm.
    + apply Permutation_sym, py_sorted_perm.
  - rewrite <- (keys_follow_cover k Kp). split; apply Permutation_in, Permutation_map.
    + apply py_sorted_perm.
    + apply Permutation_sym, py_sorted_perm.
Qed.

Lemma table_keys_cover_witness :
  generate_summary scenario = Ok scenario_summary /\
  (In (VStr "B") (table_keys (by_artisan scenario_summary)) <->
   exists r, In r scenario /\ column "artisan" r = Some (VStr "B")) /\
  (In (VStr "B") (table_keys (by_product scenario_summary)) <->
   exists r, In r scenario /\ column "product" r = Some (VStr "B")).
Proof.
  assert (H : generate_summary scenario = Ok scenario_summary) by (vm_compute; reflexivity).
  split; [exact H|].
  exact (@table_keys_cover scenario scenario_summary (VStr "B") H).
Defined.

(* ================================================================== *)
(** ** What the loader reads *)

Lemma nth_error_unique (A : Type) (l : list A) (i j : nat) (a : A) :
  NoDup l -> nth_error l i = Some a -> nth_error l j = Some a -> i = j.
Proof.
  intros Hnd Hi Hj. rewrite NoDup_nth_error in Hnd. apply Hnd.
  - apply nth_error_Some. congruence.
  - congruence.
Qed.

Lemma not_in_skipn (A : Type) (l : list A) (i n : nat) (a : A) :
  NoDup l -> nth_error l i = Some a -> (i < n)%nat -> ~ In a (skipn n l).
Proof.
  intros Hnd Hi Hlt Hin. apply In_nth_error in Hin. destruct Hin as (j & Hj).
  rewrite nth_error_skipn in Hj.
  pose proof (nth_error_unique _ _ Hnd Hi Hj). lia.
Qed.

Lemma not_in_firstn (A : Type) (l : list A) (i n : nat) (a : A) :
  NoDup l -> nth_error l i = Some a -> (n <= i)%nat -> ~ In a (firstn n l).
Proof.
  intros Hnd Hi Hle Hin. apply In_nth_error in Hin. destruct Hin as (j & Hj).
  rewrite nth_error_firstn in Hj.
  destruct (j <? n)%nat eqn:E; [|discriminate]. apply Nat.ltb_lt in E.
  pose proof (nth_error_unique _ _ Hnd Hi Hj). lia.
Qed.

Lemma in_skipn_from (A : Type) (l : list A) (i n : nat) (a : A) :
  nth_error l i = Some a -> (n <= i)%nat -> In a (skipn n l).
Proof.
  intros Hi Hle. apply nth_error_In with (n := (i - n)%nat).
  rewrite nth_error_skipn. now replace (n + (i - n))%nat with i by lia.
Qed.

Lemma in_combine_nth (A B : Type) (l1 : list A) : forall (l2 : list B) i a b,
  nth_error l1 i = Some a -> nth_error l2 i = Some b -> In (a, b) (combine l1 l2).
Proof.
  induction l1 as [|x l1 IH]; intros [|y l2] [|i] a b H1 H2; simpl in *;
    try discriminate.
  - inversion H1; inversion H2; subst. now left.
  - right. eapply IH; eauto.
Qed.

Lemma NoDup_combine_keys (B : Type) (l1 : list string) : forall (l2 : list B),
  NoDup l1 -> NoDup (map (fun kv => Some (fst kv)) (combine l1 l2)).
Proof.
  induction l1 as [|x l1 IH]; intros [|y l2] Hnd; simpl; try constructor.
  - inversion Hnd as [|? ? Hx _]; subst. intro Hin.
    apply in_map_iff in Hin. destruct Hin as ([a b] & E & Hab).
    simpl in E. inversion E; subst. apply in_combine_l in Hab. contradiction.
  - inversion Hnd; subst. now apply IH.
Qed.

Lemma get_fold_set_found (X : Type) (f : X -> colkey) (g : X -> value)
    (l : list X) : forall (d : Dict.t colkey value) (x : X),
  NoDup (map f l) -> In x l ->
  Dict.get colkey_eqb (f x)
    (fold_left (fun d x => Dict.set colkey_eqb (f x) (g x) d) l d) = Some (g x).
Proof.
  induction l as [|y l IH]; simpl; intros d x Hnd Hin; [contradiction|].
  inversion Hnd as [|? ? Hy Hnd']; subst.
  destruct Hin as [->|Hin]; [|now apply IH].
  rewrite get_fold_set_absent.
  - rewrite get_set. now rewrite colkey_eqb_refl.
  - intros z Hz E. apply Hy. rewrite <- E. now apply in_map.
Qed.

(** Under a header without repeated names, the field of a column is the cell
    that stands under it. *)
Lemma dictreader_row_cell (fieldnames cells : list string) (i : nat)
    (col v : string) :
  NoDup fieldnames ->
  nth_error fieldnames i = Some col ->
  nth_error cells i = Some v ->
  Dict.get colkey_eqb (Some col) (dictreader_row fieldnames cells) = Some (VStr v).
Proof.
  intros Hnd Hcol Hv. unfold dictreader_row.
  assert (Hd : Dict.get colkey_eqb (Some col) (dict_zip fieldnames cells) = Some (VStr v)).
  { unfold dict_zip.
    apply (@get_fold_set_found (string * string) (fun kv => Some (fst kv))
             (fun kv => VStr (snd kv)) (combine fieldnames cells) _ (col, v)).
    - now apply NoDup_combine_keys.
    - eapply in_combine_nth; eauto. }
  destruct (List.length fieldnames <? List.length cells)%nat.
  - rewrite get_set. simpl. exact Hd.
  - destruct (List.length cells <? List.length fieldnames)%nat; [|exact Hd].
    rewrite get_fold_set_absent with (f := fun key => Some key) (g := fun _ => VNone);
      [exact Hd|].
    intros x Hx E. inversion E; subst.
    eapply not_in_skipn; [exact Hnd | exact Hcol | | exact Hx].
    apply nth_error_Some. congruence.
Qed.

(** Under a header without repeated names, the field of a column the row is
    too short for is [None]. *)
Lemma dictreader_row_short (fieldnames cells : list string) (i : nat) (col : string) :
  NoDup fieldnames ->
  nth_error fieldnames i = Some col ->
  (List.length cells <= i)%nat ->
  Dict.get colkey_eqb (Some col) (dictreader_row fieldnames cells) = Some VNone.
Proof.
  intros Hnd Hcol Hle. unfold dictreader_row.
  assert (Hi : (i < List.length fieldnames)%nat) by (apply nth_error_Some; congruence).
  replace (List.length fieldnames <? List.length cells)%nat with false
    by (symmetry; apply Nat.ltb_ge; lia).
  replace (List.length cells <? List.length fieldnames)%nat with true
    by (symmetry; apply Nat.ltb_lt; lia).
  apply (@get_fold_set_found string (fun key => Some key) (fun _ => VNone)
           (skipn (List.length cells) fieldnames) _ col).
  - apply Finite.Injective_map_NoDup; [intros a b E; now inversion E|].
    rewrite <- (firstn_skipn (List.length cells) fieldnames) in Hnd.
    now apply NoDup_app_remove_l in Hnd.
  - eapply in_skipn_from; eauto.
Qed.

Section Loader.

Variable py : builtins.
Variable os : system.

Lemma load_data_existing_runs (path : string) (c : console) :
  path_exists os path = true ->
  load_data py os path c =
    (c, match read_csv os path with
        | Ok cells => convert_rows py (dictreader cells)
        | Raise e =>
            match convert_rows py (dictreader (read_before os path)) with
            | Ok _ => Raise e
            | Raise earlier => Raise earlier
            end
        end).
Proof.
  intro Hex. unfold load_data. rewrite Hex. simpl.
  destruct (read_csv os path) as [cells|e]; [reflexivity|].
  unfold bind, lift, raise.
  destruct (convert_rows py (dictreader (read_before os path))); reflexivity.
Qed.

(** X8. On an existing file [load_data] prints nothing; the rows it returns are
    the non-blank lines after the header, in file order, each converted and
    keeping the fields [DictReader] gave it; a file without any line gives no
    rows. *)
Theorem load_data_rows (path : string) (c : console) :
  path_exists os path = true ->
  fst (load_data py os path c) = c /\
  (read_csv os path = Ok [] -> snd (load_data py os path c) = Ok []) /\
  (forall fieldnames data rows,
     read_csv os path = Ok (fieldnames :: data) ->
     snd (load_data py os path c) = Ok rows ->
     Forall2
       (fun cells r =>
          convert_row py (dictreader_row fieldnames cells) = Ok r /\
          fields r = dictreader_row fieldnames cells)
       (filter (fun cells => negb (is_blank cells)) data) rows).
Proof.
  intro Hex. rewrite (load_data_existing_runs path c Hex). simpl.
  split; [reflexivity|]. split.
  - intros ->. reflexivity.
  - intros fieldnames data rows -> Hrows. simpl in Hrows.
    apply convert_rows_ok in Hrows.
    revert Hrows. generalize (filter (fun cells => negb (is_blank cells)) data).
    intros l. revert rows. induction l as [|cells l IH]; simpl; intros rows H.
    + inversion H. constructor.
    + inversion H as [|? r ? rs Hr Hrs]; subst. constructor; [|now apply IH].
      split; [assumption|]. now apply convert_row_ok in Hr.
Qed.

(** X9. Under a header without repeated names the loader reads the numbers from
    the cells under 'units_sold' and 'unit_price', wherever those columns
    stand. *)
Theorem convert_row_by_name (fieldnames cells : list string) (i j : nat)
    (su sp : string) (n : Z) (x : float) :
  NoDup fieldnames ->
  nth_error fieldnames i = Some "units_sold"%string ->
  nth_error fieldnames j = Some "unit_price"%string ->
  nth_error cells i = Some su ->
  nth_error cells j = Some sp ->
  int_of_str py su = Some n ->
  float_of_str py sp = Some x ->
  convert_row py (dictreader_row fieldnames cells) =
    Ok (mkRow n x (dictreader_row fieldnames cells)).
Proof.
  intros Hnd Hi Hj Hsu Hsp Hn Hx. unfold convert_row, dict_getitem.
  rewrite (dictreader_row_cell cells i Hnd Hi Hsu). simpl. rewrite Hn. simpl.
  rewrite (dictreader_row_cell cells j Hnd Hj Hsp). simpl. rewrite Hx. reflexivity.
Qed.

(** X10. Under a header without repeated names, a row too short to reach the
    'units_sold' column fails in [int] with a TypeError, and a row that
    reaches a good 'units_sold' but not 'unit_price' fails in [float] with a
    TypeError: the missing cells are [None]. *)
Theorem short_row_type_error (fieldnames cells : list string) (i : nat) :
  NoDup fieldnames ->
  nth_error fieldnames i = Some "units_sold"%string ->
  ((List.length cells <= i)%nat ->
   convert_row py (dictreader_row fieldnames cells) =
     Raise (TypeError "int() argument must be a string, a bytes-like object or a real number, not 'NoneType'")) /\
  (forall j su n,
     nth_error fieldnames j = Some "unit_price"%string ->
     nth_error cells i = Some su ->
     int_of_str py su = Some n ->
     (List.length cells <= j)%nat ->
     convert_row py (dictreader_row fieldnames cells) =
       Raise (TypeError "float() argument must be a string or a real number, not 'NoneType'")).
Proof.
  intros Hnd Hi. unfold convert_row, dict_getitem. split.
  - intro Hle. now rewrite (dictreader_row_short cells Hnd Hi Hle).
  - intros j su n Hj Hsu Hn Hle.
    rewrite (dictreader_row_cell cells i Hnd Hi Hsu). simpl. rewrite Hn. simpl.
    now rewrite (dictreader_row_short cells Hnd Hj Hle).
Qed.

End Loader.

(* ================================================================== *)
(** ** How a run ends *)

Section Endings.

Variable py : builtins.
Variable os : system.






Lemma run_printing (cells : list (list string)) (rows : list row) (s : summary) :
  path_exists os INPUT = true ->
  read_csv os INPUT = Ok cells ->
  convert_rows py (dictreader cells) = Ok rows ->
  generate_summary rows = Ok s ->
  run py os = finish py (print_and_save py os s console0).
Proof.
  intros Hex Hread Hconv Hsum.
  unfold run, main, try_except, bind, lift.
  rewrite (load_data_existing_runs py os INPUT console0 Hex), Hread, Hconv, Hsum.
  destruct (print_and_save py os s console0) as [c [[]|e]]; simpl; [reflexivity|].
  destruct (is_Exception e); reflexivity.
Qed.

Lemma print_and_save_makedirs_fails (s : summary) (c : console) (e : exn) :
  path_exists os OUTDIR = false ->
  makedirs os OUTDIR = Some e ->
  print_and_save py os s c = (c, Raise e).
Proof.
  intros Hex Hmk. unfold print_and_save, bind, os_call. rewrite Hex, Hmk. reflexivity.
Qed.

Lemma print_and_save_write_fails (s : summary) (c : console) (f : write_failure) :
  (path_exists os OUTDIR = true \/ makedirs os OUTDIR = None) ->
  write_text os (OUTFILE os) (report_text py os s) = Some f ->
  print_and_save py os s c =
    (mkConsole (stdout c ++ [report_text py os s]) (stderr c)
       (created c ++ dirs_created os)
       (written c ++ match f with
                     | OpenFailed _ => []
                     | WriteFailed _ kept => [(OUTFILE os, kept)]
                     end),
     Raise (failure_exn f)).
Proof.
  intros Hdir Hwr.
  unfold print_and_save, bind, os_call, note_created, note_written, print, ret, raise,
    dirs_created.
  fold (report_text py os s).
  destruct (path_exists os OUTDIR) eqn:Hex; simpl.
  - rewrite Hwr. destruct f as [e|e kept]; simpl; now rewrite !app_nil_r.
  - destruct Hdir as [Hdir|Hdir]; [discriminate|]. rewrite Hdir. simpl.
    rewrite Hwr. destruct f as [e|e kept]; simpl; now rewrite ?app_nil_r.
Qed.

Lemma print_and_save_done (s : summary) (c : console) :
  (path_exists os OUTDIR = true \/ makedirs os OUTDIR = None) ->
  write_text os (OUTFILE os) (report_text py os s) = None ->
  print_and_save py os s c =
    (mkConsole (stdout c ++ [report_text py os s; saved_line os]) (stderr c)
       (created c ++ dirs_created os)
       (written c ++ [(OUTFILE os, report_text py os s)]), Ok tt).
Proof.
  intros Hdir Hwr.
  unfold print_and_save, bind, os_call, note_created, note_written, print, ret, raise,
    dirs_created, saved_line.
  fold (report_text py os s).
  destruct (path_exists os OUTDIR) eqn:Hex; simpl.
  - rewrite Hwr. simpl. rewrite app_nil_r, <- app_assoc. reflexivity.
  - destruct Hdir as [Hdir|Hdir]; [discriminate|]. rewrite Hdir. simpl.
    rewrite Hwr. simpl. rewrite <- app_assoc. reflexivity.
Qed.

(** X11. A run that loads, aggregates and writes prints the report and then the
    line naming the file, writes to the file exactly the text it printed,
    creates the output directory only if it does not exist, leaves the error
    stream empty and ends with exit status 0. *)
Theorem run_success (cells : list (list string)) (rows : list row) (s : summary) :
  path_exists os INPUT = true ->
  read_csv os INPUT = Ok cells ->
  convert_rows py (dictreader cells) = Ok rows ->
  generate_summary rows = Ok s ->
  (path_exists os OUTDIR = true \/ makedirs os OUTDIR = None) ->
  write_text os (OUTFILE os) (report_text py os s) = None ->
  run py os =
    (mkConsole [report_text py os s; saved_line os] [] (dirs_created os)
       [(OUTFILE os, report_text py os s)], 0).
Proof.
  intros Hex Hread Hconv Hsum Hdir Hwr.
  rewrite (@run_printing cells rows s Hex Hread Hconv Hsum).
  now rewrite (@print_and_save_done s console0 Hdir Hwr).
Qed.

(** X12. When writing the report file fails, the report has already been
    printed on the standard output and the line naming the file is not
    printed.  If [open] failed, no file is written; if [open] succeeded and
    the write or the close failed, the file is there, created or truncated,
    with whatever had been written.  The handler adds its message on the
    error stream and the run ends with exit status 1. *)
Theorem run_write_failure (cells : list (list string)) (rows : list row)
    (s : summary) (f : write_failure) :
  path_exists os INPUT = true ->
  read_csv os INPUT = Ok cells ->
  convert_rows py (dictreader cells) = Ok rows ->
  generate_summary rows = Ok s ->
  (path_exists os OUTDIR = true \/ makedirs os OUTDIR = None) ->
  write_text os (OUTFILE os) (report_text py os s) = Some f ->
  is_Exception (failure_exn f) = true ->
  run py os =
    (mkConsole [report_text py os s]
       ["UNEXPECTED ERROR: " ^^ str_exn py (failure_exn f)]
       (dirs_created os)
       match f with
       | OpenFailed _ => []
       | WriteFailed _ kept => [(OUTFILE os, kept)]
       end, 1).
Proof.
  intros Hex Hread Hconv Hsum Hdir Hwr Hexc.
  rewrite (@run_printing cells rows s Hex Hread Hconv Hsum).
  rewrite (@print_and_save_write_fails s console0 f Hdir Hwr). simpl.
  now rewrite Hexc.
Qed.

(** X13. When the output directory does not exist and cannot be created, nothing
    is printed on the standard output and nothing is written: the handler
    prints its message and the run ends with exit status 1. *)
Theorem run_makedirs_failure (cells : list (list string)) (rows : list row)
    (s : summary) (e : exn) :
  path_exists os INPUT = true ->
  read_csv os INPUT = Ok cells ->
  convert_rows py (dictreader cells) = Ok rows ->
  generate_summary rows = Ok s ->
  path_exists os OUTDIR = false ->
  makedirs os OUTDIR = Some e ->
  is_Exception e = true ->
  run py os = (unexpected py e, 1).
Proof.
  intros Hex Hread Hconv Hsum Hdir Hmk Hexc.
  rewrite (@run_printing cells rows s Hex Hread Hconv Hsum).
  rewrite (@print_and_save_makedirs_fails s console0 e Hdir Hmk). simpl.
  now rewrite Hexc.
Qed.


Lemma row_error_is_Exception (r : row) (e : exn) :
  row_error r = Some e -> is_Exception e = true.
Proof.
  unfold row_error.
  destruct (PyFloat.of_int (units_sold r)); [|intro H; inversion H; reflexivity].
  destruct (column "artisan" r) as [[a| |la]|];
    try (intro H; inversion H; reflexivity).
  all: destruct (column "product" r) as [[p| |lp]|];
    intro H; inversion H; reflexivity.
Qed.

(** X15. When the file loads and the aggregation fails on a row (units that do
    not fit a float, a missing or unhashable grouping field), nothing is
    printed on the standard output and nothing is written: the handler prints
    the error of the first such row and the run ends with exit status 1. *)
Theorem run_aggregation_failure (cells : list (list string))
    (pre post : list row) (r : row) (e : exn) :
  path_exists os INPUT = true ->
  read_csv os INPUT = Ok cells ->
  convert_rows py (dictreader cells) = Ok (pre ++ r :: post) ->
  forallb row_ok pre = true ->
  row_error r = Some e ->
  run py os = (unexpected py e, 1).
Proof.
  intros Hex Hread Hconv Hpre He.
  assert (Hsum : generate_summary (pre ++ r :: post) = Raise e).
  { unfold generate_summary.
    rewrite summary_loop_first_error with (e := e); auto. }
  apply (@run_summary_error py os _ _ _ Hex Hread Hconv Hsum).
  eapply row_error_is_Exception; eauto.
Qed.


End Endings.

(* ================================================================== *)
(** ** The further properties on examples *)

Lemma header_NoDup : NoDup header.
Proof.
  unfold header. repeat constructor; simpl; intuition discriminate.
Qed.

Lemma load_data_rows_witness :
  path_exists (machine (Some good_file)) INPUT = true /\
  fst (load_data sample_py (machine (Some good_file)) INPUT console0) = console0 /\
  snd (load_data sample_py (machine (Some good_file)) INPUT console0) = Ok good_rows.
Proof.
  split; [reflexivity|].
  split; [|vm_compute; reflexivity].
  apply (@load_data_rows sample_py (machine (Some good_file)) INPUT console0).
  reflexivity.
Defined.

Lemma convert_row_by_name_witness :
  convert_row sample_py
    (dictreader_row ["units_sold"; "artisan"; "unit_price"; "product"]
       ["2"; "A"; "10"; "X"])%string =
  Ok (mkRow 2 (PyFloat.lit 10)
        (dictreader_row ["units_sold"; "artisan"; "unit_price"; "product"]
           ["2"; "A"; "10"; "X"])%string).
Proof.
  apply (@convert_row_by_name sample_py
           ["units_sold"; "artisan"; "unit_price"; "product"]%string
           ["2"; "A"; "10"; "X"]%string 0%nat 2%nat "2"%string "10"%string).
  - repeat constructor; simpl; intuition discriminate.
  - reflexivity.
  - reflexivity.
  - reflexivity.
  - reflexivity.
  - reflexivity.
  - reflexivity.
Defined.

Lemma short_row_type_error_witness :
  convert_row sample_py (dictreader_row header ["A"; "X"; "2"]%string) =
  Raise (TypeError "float() argument must be a string or a real number, not 'NoneType'").
Proof.
  apply (proj2 (@short_row_type_error sample_py header ["A"; "X"; "2"]%string 2%nat
                  header_NoDup eq_refl)) with (j := 3%nat) (su := "2"%string) (n := 2).
  - reflexivity.
  - reflexivity.
  - reflexivity.
  - simpl. lia.
Defined.

Lemma run_success_witness :
  run sample_py (machine (Some good_file)) =
    (mkConsole
       [report_text sample_py (machine (Some good_file)) good_summary;
        saved_line (machine (Some good_file))]
       [] [OUTDIR]
       [(OUTFILE (machine (Some good_file)),
         report_text sample_py (machine (Some good_file)) good_summary)], 0).
Proof.
  apply (@run_success sample_py (machine (Some good_file)) good_file good_rows good_summary).
  - reflexivity.
  - reflexivity.
  - vm_compute; reflexivity.
  - vm_compute; reflexivity.
  - right. reflexivity.
  - reflexivity.
Defined.

Lemma run_write_failure_witness :
  run sample_py
    (faulty_machine (Some good_file) None
       (Some (WriteFailed (OSError "No space left on device") "Sales Summary"))) =
    (mkConsole
       [report_text sample_py
          (faulty_machine (Some good_file) None
             (Some (WriteFailed (OSError "No space left on device") "Sales Summary")))
          good_summary]
       ["UNEXPECTED ERROR: No space left on device"%string] [OUTDIR]
       [(OUTFILE (machine (Some good_file)), "Sales Summary"%string)], 1).
Proof.
  apply (@run_write_failure sample_py
           (faulty_machine (Some good_file) None
              (Some (WriteFailed (OSError "No space left on device") "Sales Summary")))
           good_file good_rows good_summary
           (WriteFailed (OSError "No space left on device") "Sales Summary")).
  - reflexivity.
  - reflexivity.
  - vm_compute; reflexivity.
  - vm_compute; reflexivity.
  - right. reflexivity.
  - reflexivity.
  - reflexivity.
Defined.

Lemma run_makedirs_failure_witness :
  run sample_py (faulty_machine (Some good_file) (Some (OSError "Permission denied")) None) =
    (mkConsole [] ["UNEXPECTED ERROR: Permission denied"%string] [] [], 1).
Proof.
  apply (@run_makedirs_failure sample_py
           (faulty_machine (Some good_file) (Some (OSError "Permission denied")) None)
           good_file good_rows good_summary (OSError "Permission denied")).
  - reflexivity.
  - reflexivity.
  - vm_compute; reflexivity.
  - vm_compute; reflexivity.
  - reflexivity.
  - reflexivity.
  - reflexivity.
Defined.


Lemma run_aggregation_failure_witness :
  run sample_py (machine (Some no_artisan_file)) =
    (mkConsole [] ["UNEXPECTED ERROR: 'artisan'"%string] [] [], 1).
Proof.
  apply (@run_aggregation_failure sample_py (machine (Some no_artisan_file))
           no_artisan_file []
           []
           (mkRow 2 (PyFloat.lit 10)
              (dictreader_row ["product"; "units_sold"; "unit_price"]
                 ["X"; "2"; "10"])%string)
           (KeyError "artisan")).
  - reflexivity.
  - reflexivity.
  - vm_compute; reflexivity.
  - reflexivity.
  - vm_compute; reflexivity.
Defined.


(* ================================================================== *)
(** ** What the aggregation depends on *)

Lemma summary_step_same (st : summary) (r r' : row) :
  same_record r r' -> summary_step st r = summary_step st r'.
Proof.
  intros (Hu & Hp & Ha & Hpr). unfold column in Ha, Hpr.
  unfold summary_step, getitem. now rewrite Hu, Hp, Ha, Hpr.
Qed.

(** X5. The summary depends on nothing but the units, the price and the 'artisan'
    and 'product' fields of each row: other columns, surplus cells and the
    text the numbers were read from are ignored. *)
Theorem generate_summary_four_fields (df df' : list row) :
  Forall2 same_record df df' ->
  generate_summary df = generate_summary df'.
Proof.
  intro H. unfold generate_summary. f_equal.
  generalize (mkSummary PyFloat.zero 0 (Dict.empty value vals) (Dict.empty value vals)).
  induction H as [|r r' df df' Hr _ IH]; simpl; intro st; [reflexivity|].
  rewrite (summary_step_same st Hr).
  destruct (summary_step st r'); simpl; [apply IH | reflexivity].
Qed.

Lemma generate_summary_four_fields_witness :
  generate_summary good_rows =
  generate_summary [record "A" "X" 2 (PyFloat.lit 10); record "B" "X" 1 (PyFloat.lit 5)].
Proof.
  apply generate_summary_four_fields.
  repeat constructor.
Defined.

Lemma Permutation_filter (A : Type) (f : A -> bool) (l l' : list A) :
  Permutation l l' -> Permutation (filter f l) (filter f l').
Proof.
  induction 1 as [|x l l' _ IH|x y l|l l' l'' _ IH1 _ IH2]; simpl.
  - constructor.
  - destruct (f x); [now constructor | assumption].
  - destruct (f x), (f y); try apply Permutation_refl. apply perm_swap.
  - eapply perm_trans; eauto.
Qed.

Lemma forallb_Permutation (A : Type) (f : A -> bool) (l l' : list A) :
  Permutation l l' -> forallb f l = forallb f l'.
Proof.
  induction 1 as [|x l l' _ IH|x y l|l l' l'' _ IH1 _ IH2]; simpl.
  - reflexivity.
  - now rewrite IH.
  - destruct (f x), (f y); reflexivity.
  - congruence.
Qed.

Lemma group_units_perm (col : string) (k : value) (df df' : list row) :
  Permutation df df' ->
  Zsum (map units_sold (rows_of col k df)) = Zsum (map units_sold (rows_of col k df')).
Proof.
  intro H. apply Zsum_Permutation, Permutation_map. now apply Permutation_filter.
Qed.

(** X6. The unit counts do not depend on the order of the records: on a
    reordered input [generate_summary] returns as well, with the same
    [total_units] and the same units for every artisan and every product. *)
Theorem units_order_independent (df df' : list row) (s : summary) :
  Permutation df df' ->
  generate_summary df = Ok s ->
  exists s',
    generate_summary df' = Ok s' /\
    total_units s' = total_units s /\
    (forall k v v', In (k, v) (by_artisan s) -> In (k, v') (by_artisan s') ->
                    units v' = units v) /\
    (forall k v v', In (k, v) (by_product s) -> In (k, v') (by_product s') ->
                    units v' = units v).
Proof.
  intros Hperm H.
  assert (Hret : exists s', generate_summary df' = Ok s').
  { apply generate_summary_returns. rewrite <- (forallb_Permutation row_ok Hperm).
    apply generate_summary_returns. eauto. }
  destruct Hret as (s' & H'). exists s'. split; [exact H'|].
  apply generate_summary_inv in H. destruct H as (st & Hloop & _ & Hu & Ha & Hp).
  apply generate_summary_inv in H'. destruct H' as (st' & Hloop' & _ & Hu' & Ha' & Hp').
  pose proof (@summary_loop_totals df _ _ Hloop) as (T & _ & _ & Na & Np).
  pose proof (@summary_loop_totals df' _ _ Hloop') as (T' & _ & _ & Na' & Np').
  simpl in T, T', Na, Np, Na', Np'.
  split; [|split].
  - rewrite Hu, Hu', T, T'.
    apply Zsum_Permutation, Permutation_map, Permutation_sym, Hperm.
  - intros k v v' Hin Hin'. rewrite Ha in Hin. rewrite Ha' in Hin'.
    destruct (@sorted_entry "artisan" by_artisan df st k v artisan_step_full eq_refl
                (Na (NoDup_nil _)) Hloop Hin) as (_ & _ & E & _).
    destruct (@sorted_entry "artisan" by_artisan df' st' k v' artisan_step_full eq_refl
                (Na' (NoDup_nil _)) Hloop' Hin') as (_ & _ & E' & _).
    rewrite E, E'. symmetry. now apply group_units_perm.
  - intros k v v' Hin Hin'. rewrite Hp in Hin. rewrite Hp' in Hin'.
    destruct (@sorted_entry "product" by_product df st k v product_step_full eq_refl
                (Np (NoDup_nil _)) Hloop Hin) as (_ & _ & E & _).
    destruct (@sorted_entry "product" by_product df' st' k v' product_step_full eq_refl
                (Np' (NoDup_nil _)) Hloop' Hin') as (_ & _ & E' & _).
    rewrite E, E'. symmetry. now apply group_units_perm.
Qed.

Lemma units_order_independent_witness :
  exists s',
    generate_summary (rev scenario) = Ok s' /\
    total_units s' = total_units scenario_summary /\
    (forall k v v', In (k, v) (by_artisan scenario_summary) -> In (k, v') (by_artisan s') ->
                    units v' = units v) /\
    (forall k v v', In (k, v) (by_product scenario_summary) -> In (k, v') (by_product s') ->
                    units v' = units v).
Proof.
  apply (@units_order_independent scenario (rev scenario) scenario_summary).
  - apply Permutation_rev.
  - vm_compute; reflexivity.
Defined.

Lemma summary_loop_totals_nonneg (df : list row) : forall st st',
  forallb nonneg_row df = true ->
  summary_loop st df = Ok st' ->
  nonneg (total_revenue st) = true -> 0 <= total_units st ->
  nonneg (total_revenue st') = true /\ 0 <= total_units st'.
Proof.
  induction df as [|r df IH]; simpl; intros st st' Hdf H Hr Hu.
  - inversion H; subst. auto.
  - apply andb_true_iff in Hdf. destruct Hdf as [Hrow Hdf].
    unfold nonneg_row in Hrow. apply andb_true_iff in Hrow. destruct Hrow as [Hn Hprice].
    apply Z.leb_le in Hn.
    destruct (summary_step st r) as [st1|] eqn:E; simpl in H; [|discriminate].
    apply summary_step_inv in E. destruct E as (rev & a & p & Hrev & _ & _ & ->).
    assert (Hnn : nonneg rev = true).
    { unfold mul_int_float in Hrev.
      destruct (PyFloat.of_int (units_sold r)) as [f|] eqn:Ef; [|discriminate].
      inversion Hrev; subst. apply mul_nonneg; [|assumption].
      exact (@of_int_nonneg (units_sold r) f Hn Ef). }
    apply (IH _ _ Hdf H); cbn [total_revenue total_units].
    + apply add_nonneg; assumption.
    + lia.
Qed.

(** X7. When every record has non-negative units and a non-negative finite
    price, the totals are non-negative: [total_units >= 0] and
    [total_revenue] is a zero, a positive number or plus infinity, never NaN
    and never negative. *)
Theorem totals_nonneg (df : list row) (s : summary) :
  forallb nonneg_row df = true ->
  generate_summary df = Ok s ->
  0 <= total_units s /\
  nonneg (total_revenue s) = true /\
  PyFloat.is_nan (total_revenue s) = false.
Proof.
  intros Hdf H. apply generate_summary_inv in H.
  destruct H as (st & Hloop & Hr & Hu & _).
  destruct (@summary_loop_totals_nonneg df _ _ Hdf Hloop eq_refl (Z.le_refl 0)) as [Nr Nu].
  rewrite Hr, Hu. split; [assumption|]. split; [assumption|].
  now apply nonneg_not_nan.
Qed.

Lemma totals_nonneg_witness :
  0 <= total_units scenario_summary /\
  nonneg (total_revenue scenario_summary) = true /\
  PyFloat.is_nan (total_revenue scenario_summary) = false.
Proof.
  apply (@totals_nonneg scenario scenario_summary); vm_compute; reflexivity.
Defined.

(* ================================================================== *)
(** ** Revenue beyond every tolerance *)


(* ================================================================== *)
(** ** A NaN revenue under any order *)

(** A table of two entries or more, one of them with a NaN revenue, is not
    ranked, in whatever order it stands. *)
Lemma nan_entry_not_ranked (col : string) (df : list row) (t : table)
    (e : value * vals) :
  In e t -> PyFloat.is_nan (revenue (snd e)) = true -> (2 <= List.length t)%nat ->
  ~ ranked col df t.
Proof.
  unfold ranked. intros Hin Hnan Hlen H.
  assert (Hl : forall x, PyFloat.geb (revenue (snd e)) x = false)
    by (intro x; destruct (revenue (snd e)); try discriminate; now destruct x).
  assert (Hr : forall x, PyFloat.geb x (revenue (snd e)) = false)
    by (intro x; destruct (revenue (snd e)); try discriminate; now destruct x).
  induction H as [|a t Ha H IH]; [contradiction|].
  rewrite Forall_forall in Ha.
  destruct Hin as [->|Hin].
  - destruct t as [|b t]; [simpl in Hlen; lia|].
    destruct (Ha b (or_introl eq_refl)) as [Hge _]. rewrite Hl in Hge. discriminate.
  - destruct (Ha e Hin) as [Hge _]. rewrite Hr in Hge. discriminate.
Qed.

(** Whatever order a sort gives the three entries of the NaN example, the
    table is not ranked. *)
Lemma nan_table_never_ranked (t : table) :
  Permutation t (by_artisan nan_summary) -> ~ ranked "artisan" nan_rows t.
Proof.
  intro Hp.
  apply nan_entry_not_ranked with (e := (VStr "B", mkVals 1 S754_nan)).
  - eapply Permutation_in; [apply Permutation_sym, Hp|]. simpl. tauto.
  - reflexivity.
  - rewrite (Permutation_length Hp). simpl. lia.
Qed.

(* ================================================================== *)
(** ** Text that is no numeral and converts *)

